(** * list_3mf_files.py: a shallow embedding and its properties

    The script downloads 3MF archives from a printer over FTPS, extracts
    selected entries and prints the remote directory tree.  This file embeds
    the script's procedures as functions over an explicit world (local files,
    directories, temporary files, log records, standard output, requests to
    the printer's file list) and an exception-or-value result, and proves the
    properties listed as C1..C10 and further ones.

    Conventions of the embedding:
    - a Python [str] is a Rocq [string] holding its UTF-8 bytes; operations
      that count characters ([indent[:-4]]) count code points;
    - an exception is identified with its message [str(e)]; the messages of
      the errors that Python's own libraries raise are given by the
      environment, not spelled out here;
    - the remote connection, the ZIP reader and the image decoder are
      collaborators outside the script: they are parameters (oracles).  An
      archive that opens may still hold members that cannot be opened or
      read;
    - wall-clock measurements ([time.time()]) only feed log texts and are left
      out of the log records;
    - local failures that the state of the local tree decides are modelled:
      [os.makedirs] on the path of a regular file and [open(p, 'wb')] on the
      path of a directory raise.  Failures of the machine (a full disk, a
      missing permission, no room for the temporary file) are not. *)

From Stdlib Require Import ZArith.
From Stdlib.Strings Require Import Byte Ascii String.
From stdpp Require Import gmap strings list fin_maps pretty sorting.

Open Scope string_scope.
Open Scope list_scope.

(** ** Python string operations used by the script *)

Module Py.

(** [s.startswith(p)] *)
Definition startswith (s p : string) : bool := String.prefix p s.

(** [s.endswith(p)]: [p] is one of the suffixes of [s] *)
Fixpoint endswith (s p : string) : bool :=
  String.eqb s p ||
  match s with
  | EmptyString => false
  | String _ s' => endswith s' p
  end.

(** [p in s] for strings *)
Fixpoint contains (s p : string) : bool :=
  String.prefix p s ||
  match s with
  | EmptyString => false
  | String _ s' => contains s' p
  end.

(** One character of [str.lower()]: the ASCII letters are mapped; bytes of
    multi-byte characters are kept.  No character outside ASCII lower-cases
    to a text matched by the patterns of this script. *)
Definition lower_ascii (c : ascii) : ascii :=
  let n := nat_of_ascii c in
  if (65 <=? n)%nat && (n <=? 90)%nat then ascii_of_nat (n + 32) else c.

Fixpoint lower (s : string) : string :=
  match s with
  | EmptyString => EmptyString
  | String c s' => String (lower_ascii c) (lower s')
  end.

Fixpoint lstrip (c : ascii) (s : string) : string :=
  match s with
  | EmptyString => EmptyString
  | String d s' => if decide (d = c) then lstrip c s' else s
  end.

(** [s.rstrip(c)] for a one-character argument *)
Definition rstrip (c : ascii) (s : string) : string :=
  String.rev (lstrip c (String.rev s)).

(** [s.replace("//", "/")]: left to right, occurrences do not overlap *)
Fixpoint replace_dslash (s : string) : string :=
  match s with
  | String "/" (String "/" s'') => String "/" (replace_dslash s'')
  | String c s' => String c (replace_dslash s')
  | EmptyString => EmptyString
  end.

(** [s * n] *)
Fixpoint repeat_str (s : string) (n : nat) : string :=
  match n with
  | O => ""
  | S n' => s +:+ repeat_str s n'
  end.

(** A UTF-8 continuation byte (10xxxxxx). *)
Definition is_continuation (c : ascii) : bool :=
  let n := nat_of_ascii c in (128 <=? n)%nat && (n <? 192)%nat.

(** Remove the first code point of a reversed UTF-8 string, that is the last
    code point of the string: its continuation bytes, then its lead byte. *)
Fixpoint drop_last_rev (r : string) : string :=
  match r with
  | EmptyString => EmptyString
  | String c r' => if is_continuation c then drop_last_rev r' else r'
  end.

(** [len(s)]: the number of code points *)
Fixpoint len (s : string) : nat :=
  match s with
  | EmptyString => O
  | String c s' => if is_continuation c then len s' else S (len s')
  end.

(** [s[:-n]] for [n > 0]: all but the last [n] code points. *)
Definition slice_to_minus (n : nat) (s : string) : string :=
  String.rev (Nat.iter n drop_last_rev (String.rev s)).

(** Thousands grouping of a digit string, as the [,] format option does. *)
Fixpoint group3_rev (r : string) : string :=
  match r with
  | String a (String b (String c (String _ _ as rest))) =>
      String a (String b (String c (String "," (group3_rev rest))))
  | _ => r
  end.

(** [f"{n:,}"] for an integer *)
Definition format_comma (n : Z) : string :=
  let digits := String.rev (group3_rev (String.rev (pretty (Z.abs_N n)))) in
  if (n <? 0)%Z then "-" +:+ digits else digits.

End Py.

(** ** os.path (POSIX flavour) *)

Module os_path.

Fixpoint basename_go (s cur : string) : string :=
  match s with
  | EmptyString => cur
  | String c s' => if decide (c = "/"%char) then basename_go s' s'
                   else basename_go s' cur
  end.

(** [os.path.basename(p)]: what follows the last slash *)
Definition basename (p : string) : string := basename_go p p.

(** [p.rfind(c)], [-1] when [c] does not occur *)
Fixpoint rfind_go (c : ascii) (s : string) (i : Z) (found : Z) : Z :=
  match s with
  | EmptyString => found
  | String d s' => rfind_go c s' (i + 1) (if decide (d = c) then i else found)
  end.

Definition rfind (c : ascii) (s : string) : Z := rfind_go c s 0 (-1).

Fixpoint all_dots (s : string) : bool :=
  match s with
  | EmptyString => true
  | String c s' => if decide (c = "."%char) then all_dots s' else false
  end.

(** [os.path.splitext(p)[0]]: the extension starts at the last dot, unless
    that dot is before the last slash or only dots precede it in the name *)
Definition splitext_root (p : string) : string :=
  let sepIndex := rfind "/" p in
  let dotIndex := rfind "." p in
  if (sepIndex <? dotIndex)%Z then
    let filenameIndex := (sepIndex + 1)%Z in
    if all_dots (String.substring (Z.to_nat filenameIndex)
                                  (Z.to_nat (dotIndex - filenameIndex)) p)
    then p
    else String.substring 0 (Z.to_nat dotIndex) p
  else p.

(** [os.path.join(a, b)] *)
Definition join (a b : string) : string :=
  if Py.startswith b "/" then b
  else if decide (a = "") then b
  else if Py.endswith a "/" then a +:+ b
  else a +:+ "/" +:+ b.

End os_path.

(** ** Results, collaborators, the world *)

(** An exception, identified with its message [str(e)]. *)
Definition exn := string.

Inductive result (A : Type) : Type :=
| Ok (a : A)
| Raise (e : exn).
Arguments Ok {A} a.
Arguments Raise {A} e.

(** Modelled from the spec: the remote file descriptor yielded by the
    connection's directory listing (ftps_client.py is not part of the
    sources).  The script reads its [name] and orders descriptors of one
    directory, which orders them by name. *)
Record remote_item := { name : string }.

(** Modelled from the spec: the connection handle of the file-transfer
    collaborator, with the capabilities list/download/get_size/get_date.
    [download_file] gives the bytes that end up in the local file. *)
Module Ftp.
Record IoTFTPSConnection := {
  list_files : string → result (list remote_item);
  download_file : string → result (list byte);
  get_file_size : string → result Z;
  get_file_date : string → result string;
}.
End Ftp.
Export Ftp.

(** Modelled from the spec: a descriptor of the extension-filtered listing
    (remote_sd_card_file_list.py is not part of the sources). *)
Record FileInfo := { file_name : string; path : string }.

(** Modelled from the spec: the listing collaborator built from the settings:
    a scoped connection and a listing with an extension filter. *)
Module FileList.
Record RemoteSDCardFileList := {
  get_ftps_client : result IoTFTPSConnection;
  list_files : string → string → IoTFTPSConnection → result (list FileInfo);
}.
End FileList.

(** What [zip_file.open(name)] and the [read()] of what it returns give for
    a member: its bytes; an error when the member is opened (encrypted,
    unsupported compression, damaged header); or an error when it is read
    (the check sum of what was read is wrong). *)
Inductive content :=
| Stored (bs : list byte)
| Open_raises (e : exn)
| Read_raises (e : exn).

(** One member of an opened archive: [ZipInfo.filename], [ZipInfo.file_size]
    (the size the archive's directory records) and what opening and reading
    the member gives. *)
Record ZipInfo := { filename : string; file_size : Z; data : content }.

(** An opened [ZipFile]: its [filelist]. *)
Definition ZipArchive := list ZipInfo.

Inductive setting :=
| SStr (s : string)
| SBool (b : bool).

(** [MockSettings]: the dataclass around a dict. *)
Record MockSettings := { _settings : gmap string setting }.

(** A call on the file list built from the settings: the request for a
    connection, and the request for the listing of a folder. *)
Inductive request :=
| Connect (settings : MockSettings)
| List_files (folder extensions : string).

(** The errors of Python's own libraries that the script can meet. *)
Inductive builtin_error :=
| FileExistsError (path : string)
| IsADirectoryError (path : string)
| FileNotFoundError (path : string)
| KeyError (key : string).

Inductive log_msg :=
| Found_3MF_files (n : nat)
| Processing (file_name : string)
| Failed_to_process (file_name : string) (e : exn)
| Connection_error (e : exn)
| Total_operation_completed
| Downloaded (remote_path : string) (size : Z)
| Extracting (n : nat) (total_size : Z)
| Extraction_completed
| Total_processing_time
| Please_configure
| Connecting_to_printer (ip : string).

Inductive log_record :=
| INFO (m : log_msg)
| ERROR (m : log_msg).

(** What the script can observe and change.  Temporary files live in the
    system's temporary directory, apart from the tree the script writes to;
    each is identified by a number that [NamedTemporaryFile] picks fresh.
    [requests] records, in order, the calls made on the file list. *)
Record World := {
  files : gmap string (list byte);
  dirs : gset string;
  temps : gmap nat (list byte);
  log : list log_record;
  stdout : list string;
  requests : list request;
}.

(** The libraries and the installation the script runs against. *)
Record Env := {
  Image : Type;
  (** [ZipFile(path)] on the bytes of the file: the archive, or the error of a
      file that is not a ZIP *)
  ZipFile : list byte → result ZipArchive;
  (** [Image.open(io.BytesIO(bytes))] *)
  Image_open : list byte → result Image;
  (** [os.path.dirname(__file__)] *)
  script_dir : string;
  (** the order in which the set [required_files] is iterated *)
  required_iteration : list string;
  (** [RemoteSDCardFileList(settings)] *)
  RemoteSDCardFileList : MockSettings → FileList.RemoteSDCardFileList;
  (** [temp_file.name]: the path that [tempfile] picks for a temporary file *)
  temp_name : nat → string;
  (** [str(e)] for an error raised by Python's own libraries *)
  str : builtin_error → exn;
}.

(** ** A state and exception monad *)

Definition M (A : Type) : Type := World → result A * World.

Definition ret {A} (a : A) : M A := λ w, (Ok a, w).
Definition raise {A} (e : exn) : M A := λ w, (Raise e, w).
Definition bind {A B} (m : M A) (k : A → M B) : M B := λ w,
  match m w with
  | (Ok a, w') => k a w'
  | (Raise e, w') => (Raise e, w')
  end.
Definition lift {A} (r : result A) : M A := λ w, (r, w).

(** [try: m  except Exception as e: h e] *)
Definition try_except {A} (m : M A) (h : exn → M A) : M A := λ w,
  match m w with
  | (Ok a, w') => (Ok a, w')
  | (Raise e, w') => h e w'
  end.

Declare Scope py_scope.
Delimit Scope py_scope with py.
Notation "x <- m ;; k" := (bind m (λ x, k))
  (at level 100, m at next level, right associativity) : py_scope.
Notation "m ;;; k" := (bind m (λ _, k))
  (at level 100, right associativity) : py_scope.
Open Scope py_scope.

(** [for x in l: f x]; an exception ends the loop *)
Fixpoint for_each {A} (l : list A) (f : A → M unit) : M unit :=
  match l with
  | [] => ret tt
  | x :: l' => f x ;;; for_each l' f
  end.

(** *** Primitive effects *)

Definition set_files (f : gmap string (list byte) → gmap string (list byte)) (w : World) : World :=
  {| files := f (files w); dirs := dirs w; temps := temps w; log := log w;
     stdout := stdout w; requests := requests w |}.
Definition set_dirs (f : gset string → gset string) (w : World) : World :=
  {| files := files w; dirs := f (dirs w); temps := temps w; log := log w;
     stdout := stdout w; requests := requests w |}.
Definition set_temps (f : gmap nat (list byte) → gmap nat (list byte)) (w : World) : World :=
  {| files := files w; dirs := dirs w; temps := f (temps w); log := log w;
     stdout := stdout w; requests := requests w |}.
Definition set_log (f : list log_record → list log_record) (w : World) : World :=
  {| files := files w; dirs := dirs w; temps := temps w; log := f (log w);
     stdout := stdout w; requests := requests w |}.
Definition set_stdout (f : list string → list string) (w : World) : World :=
  {| files := files w; dirs := dirs w; temps := temps w; log := log w;
     stdout := f (stdout w); requests := requests w |}.
Definition set_requests (f : list request → list request) (w : World) : World :=
  {| files := files w; dirs := dirs w; temps := temps w; log := log w;
     stdout := stdout w; requests := f (requests w) |}.

(** [print(line)] *)
Definition print (line : string) : M unit := λ w, (Ok tt, set_stdout (λ o, o ++ [line]) w).

Definition logger_info (m : log_msg) : M unit := λ w, (Ok tt, set_log (λ l, l ++ [INFO m]) w).
Definition logger_error (m : log_msg) : M unit := λ w, (Ok tt, set_log (λ l, l ++ [ERROR m]) w).

(** [os.makedirs(d, exist_ok=True)]: an existing directory is accepted, a
    regular file at that path is an error.  (The directories above the ones
    the script creates hold the script itself.) *)
Definition makedirs (env : Env) (d : string) : M unit := λ w,
  if decide (is_Some (files w !! d)) then (Raise (str env (FileExistsError d)), w)
  else (Ok tt, set_dirs (λ ds, {[d]} ∪ ds) w).

(** [open(p, 'wb')]: the file is created, or emptied when it exists; the path
    of a directory is an error. *)
Definition open_wb (env : Env) (p : string) : M unit := λ w,
  if decide (p ∈ dirs w) then (Raise (str env (IsADirectoryError p)), w)
  else (Ok tt, set_files (<[p := []]>) w).

(** [f.write(bs)] on the file opened at [p], closed at the end of its block *)
Definition file_write (p : string) (bs : list byte) : M unit := λ w,
  (Ok tt, set_files (<[p := bs]>) w).

(** [file_list.get_ftps_client()], on the list built from [settings] *)
Definition get_ftps_client (settings : MockSettings) (file_list : FileList.RemoteSDCardFileList)
    : M IoTFTPSConnection := λ w,
  (FileList.get_ftps_client file_list, set_requests (λ rs, rs ++ [Connect settings]) w).

(** [file_list.list_files(folder=..., extensions=..., ftp=ftp)] *)
Definition list_files (file_list : FileList.RemoteSDCardFileList) (folder extensions : string)
    (ftp : IoTFTPSConnection) : M (list FileInfo) := λ w,
  (FileList.list_files file_list folder extensions ftp,
   set_requests (λ rs, rs ++ [List_files folder extensions]) w).

(** The name [NamedTemporaryFile] creates: one no temporary file has. *)
Definition new_temp (w : World) : nat := fresh (dom (temps w)).

(** [with tempfile.NamedTemporaryFile(suffix='.3mf', delete=True) as temp_file: body]:
    the file is created empty, and removed when the block is left, by its
    end or by an exception. *)
Definition NamedTemporaryFile {A} (body : nat → M A) : M A := λ w,
  let temp_file := new_temp w in
  let '(r, w') := body temp_file (set_temps (<[temp_file := []]>) w) in
  (r, set_temps (delete temp_file) w').

(** [ftp.download_file(remote_path, temp_file.name)] *)
Definition download_file (ftp : IoTFTPSConnection) (remote_path : string) (t : nat) : M unit := λ w,
  match Ftp.download_file ftp remote_path with
  | Ok bs => (Ok tt, set_temps (<[t := bs]>) w)
  | Raise e => (Raise e, w)
  end.

(** [os.path.getsize(temp_file.name)] *)
Definition getsize (env : Env) (t : nat) : M Z := λ w,
  match temps w !! t with
  | Some bs => (Ok (Z.of_nat (length bs)), w)
  | None => (Raise (str env (FileNotFoundError (temp_name env t))), w)
  end.

(** ** The archive reader's interface *)

(** [zip_file.namelist()] *)
Definition namelist (z : ZipArchive) : list string := filename <$> z.

(** [zip_file.NameToInfo], also the dict
    [{info.filename: info for info in zip_file.filelist}]: of two members
    with one name the later one is kept. *)
Definition NameToInfo (z : ZipArchive) : gmap string ZipInfo :=
  foldl (λ m info, <[filename info := info]> m) ∅ z.

(** [zip_file.open(name)]: the member the name table holds for [name] is
    opened; what is returned gives, when it is read, the bytes of the member
    or the error of the read.  A name that is not in the archive is a
    [KeyError]. *)
Definition zip_open (env : Env) (z : ZipArchive) (name : string) : result (result (list byte)) :=
  match NameToInfo z !! name with
  | Some info =>
      match data info with
      | Stored bs => Ok (Ok bs)
      | Read_raises e => Ok (Raise e)
      | Open_raises e => Raise e
      end
  | None => Raise (str env (KeyError name))
  end.

(** [with zip_file.open(name) as f: f.read()] *)
Definition zip_read (env : Env) (z : ZipArchive) (name : string) : result (list byte) :=
  match zip_open env z name with
  | Ok src => src
  | Raise e => Raise e
  end.

(** [ZipFile(temp_file.name)] *)
Definition open_ZipFile (env : Env) (t : nat) : M ZipArchive := λ w,
  match temps w !! t with
  | Some bs => (ZipFile env bs, w)
  | None => (Raise (str env (FileNotFoundError (temp_name env t))), w)
  end.

(** ** The script *)

Definition create_settings (host access_code : string) : MockSettings :=
  {| _settings :=
       <["use_local_storage" := SBool false]>
         (<["bambu_connection_type" := SStr "lan"]>
            (<["access_code" := SStr access_code]>
               ({["host" := SStr host]}))) |}.

(** *** extract_thumbnails *)

Definition is_thumbnail (filename : string) : bool :=
  Py.contains (Py.lower filename) "thumbnail" &&
  (Py.endswith (Py.lower filename) ".png"
   || Py.endswith (Py.lower filename) ".jpg"
   || Py.endswith (Py.lower filename) ".jpeg").

(** The loop over [namelist()]: the list built so far, and how the loop ended *)
Fixpoint thumbnails_loop (env : Env) (zip_file : ZipArchive) (names : list string)
    (thumbnails : list (Image env)) : list (Image env) * result unit :=
  match names with
  | [] => (thumbnails, Ok tt)
  | filename :: names' =>
      if is_thumbnail filename then
        match zip_read env zip_file filename with
        | Ok bs =>
            match Image_open env bs with
            | Ok img => thumbnails_loop env zip_file names' (thumbnails ++ [img])
            | Raise e => (thumbnails, Raise e)
            end
        | Raise e => (thumbnails, Raise e)
        end
      else thumbnails_loop env zip_file names' thumbnails
  end.

(** The body of the [try]: the local list [thumbnails] survives an exception *)
Definition thumbnails_try (env : Env) (t : nat) : M (list (Image env) * result unit) := λ w,
  match open_ZipFile env t w with
  | (Ok zip_file, w') => (Ok (thumbnails_loop env zip_file (namelist zip_file) []), w')
  | (Raise e, w') => (Ok ([], Raise e), w')
  end.

Definition extract_thumbnails (env : Env) (ftp : IoTFTPSConnection) (remote_path : string)
    : M (list (Image env)) :=
  NamedTemporaryFile (λ temp_file,
    download_file ftp remote_path temp_file ;;;
    tr <- thumbnails_try env temp_file ;;
    match tr.2 with
    | Ok _ => ret tt
    | Raise e => print ("  └── Error processing ZIP: " +:+ e)
    end ;;;
    ret tr.1).

(** *** extract_required_files *)


Definition output_dir (env : Env) (remote_path : string) : string :=
  os_path.join (script_dir env) (os_path.splitext_root (os_path.basename remote_path)).

Definition extract_required_files (env : Env) (ftp : IoTFTPSConnection) (remote_path : string)
    : M unit :=
  makedirs env (output_dir env remote_path) ;;;
  NamedTemporaryFile (λ temp_file,
    download_file ftp remote_path temp_file ;;;
    size <- getsize env temp_file ;;
    logger_info (Downloaded remote_path size) ;;;
    zip_file <- open_ZipFile env temp_file ;;
    let file_info := NameToInfo zip_file in
    let total_size :=
      foldr Z.add 0%Z
        (omap (λ f, file_size <$> file_info !! f) (required_iteration env)) in
    logger_info (Extracting (length (required_iteration env)) total_size) ;;;
    for_each (required_iteration env) (λ filename,
      if decide (is_Some (file_info !! filename)) then
        let save_path := os_path.join (output_dir env remote_path) (os_path.basename filename) in
        src <- lift (zip_open env zip_file filename) ;;
        open_wb env save_path ;;;
        bs <- lift src ;;
        file_write save_path bs
      else ret tt) ;;;
    logger_info Extraction_completed ;;;
    logger_info Total_processing_time).

(** *** list_3mf_files *)

Definition list_3mf_files (env : Env) (host access_code : string) : M unit :=
  let settings := create_settings host access_code in
  let file_list := RemoteSDCardFileList env settings in
  try_except
    (ftp <- get_ftps_client settings file_list ;;
     files <- list_files file_list "/" ".3mf" ftp ;;
     logger_info (Found_3MF_files (length files)) ;;;
     for_each files (λ file,
       logger_info (Processing (file_name file)) ;;;
       try_except (extract_required_files env ftp (path file))
                  (λ e, logger_error (Failed_to_process (file_name file) e))))
    (λ e, logger_error (Connection_error e)) ;;;
  logger_info Total_operation_completed.

(** *** examine_3mf_structure *)

Definition newline : string := String (ascii_of_nat 10) "".

Definition thumbnails_dir (env : Env) : string := os_path.join (script_dir env) "thumbnails".

Definition is_metadata_png (filename : string) : bool :=
  Py.startswith filename "Metadata/" && Py.endswith filename ".png".

(** The body of the loop over [zip_file.filelist] *)
Definition examine_entry (env : Env) (zip_file : ZipArchive) (info : ZipInfo) : M unit :=
  print ("File: " +:+ filename info) ;;;
  print ("  Size: " +:+ Py.format_comma (file_size info) +:+ " bytes") ;;;
  (if is_metadata_png (filename info) then
     let png_name := os_path.basename (filename info) in
     let save_path := os_path.join (thumbnails_dir env) png_name in
     image_file <- lift (zip_open env zip_file (filename info)) ;;
     open_wb env save_path ;;;
     bs <- lift image_file ;;
     file_write save_path bs ;;;
     print ("  └── Extracted to: " +:+ save_path)
   else ret tt) ;;;
  print "".

Definition examine_3mf_structure (env : Env) (ftp : IoTFTPSConnection) (remote_path : string)
    : M unit :=
  makedirs env (thumbnails_dir env) ;;;
  NamedTemporaryFile (λ temp_file,
    print ("Downloading " +:+ remote_path +:+ " to " +:+ temp_name env temp_file +:+ "...") ;;;
    download_file ftp remote_path temp_file ;;;
    print (newline +:+ "Examining 3MF structure and extracting thumbnails:") ;;;
    print (Py.repeat_str "-" 60) ;;;
    try_except
      (zip_file <- open_ZipFile env temp_file ;;
       for_each zip_file (examine_entry env zip_file))
      (λ e, print ("Error examining ZIP: " +:+ e))).

(** *** main *)

Definition PRINTER_IP : string := "192.168.178.70".
Definition ACCESS_CODE : string := "33055062".

(** The body of [main], for any value of its two constants *)
Definition main_with (PRINTER_IP ACCESS_CODE : string) (env : Env) : M unit :=
  if String.eqb PRINTER_IP "192.168.1.100" || String.eqb ACCESS_CODE "12345678" then
    logger_error Please_configure
  else
    logger_info (Connecting_to_printer PRINTER_IP) ;;;
    list_3mf_files env PRINTER_IP ACCESS_CODE.

Definition main (env : Env) : M unit := main_with PRINTER_IP ACCESS_CODE env.

(** *** list_printer_filesystem and its tree walker *)

(** [f"{path.rstrip('/')}/{name}".replace("//", "/")] *)
Definition child_path (path name : string) : string :=
  Py.replace_dslash (Py.rstrip "/" path +:+ "/" +:+ name).

(** [indent]: the prefix of an entry that is not the last of its level *)
Definition indent (level : Z) : string :=
  if (0 <? level)%Z
  then Py.repeat_str "  │   " (Z.to_nat (level - 1)) +:+ "  ├── "
  else "".

(** [dir_indent] and [file_indent] *)
Definition entry_indent (level : Z) (is_last : bool) : string :=
  if is_last then Py.slice_to_minus 4 (indent level) +:+ "  └── " else indent level.

(** The classification loop: a child whose size query succeeds is a file,
    kept with its size; a child whose size query fails is a directory. *)
Definition classify_step (ftp : IoTFTPSConnection) (path : string)
    (acc : list remote_item * list (remote_item * Z)) (item : remote_item)
    : list remote_item * list (remote_item * Z) :=
  match get_file_size ftp (child_path path (name item)) with
  | Ok size => (acc.1, acc.2 ++ [(item, size)])
  | Raise _ => (acc.1 ++ [item], acc.2)
  end.

Definition classify (ftp : IoTFTPSConnection) (path : string) (items : list remote_item)
    : list remote_item * list (remote_item * Z) :=
  foldl (classify_step ftp path) ([], []) items.

(** The order of [sorted(dirs)]: descriptors of one directory, by name. *)
Definition item_le (a b : remote_item) : Prop := String.le (name a) (name b).

(** The order of [sorted(files)]: pairs, by descriptor and then by size. *)
Definition file_le (x y : remote_item * Z) : Prop :=
  (name x.1 ≠ name y.1 ∧ String.le (name x.1) (name y.1))
  ∨ (name x.1 = name y.1 ∧ (x.2 ≤ y.2)%Z).

#[global] Instance item_le_dec : RelDecision item_le.
Proof. intros a b. unfold item_le. apply _. Defined.

#[global] Instance file_le_dec : RelDecision file_le.
Proof. intros x y. unfold file_le. apply _. Defined.

Definition sorted_dirs (ds : list remote_item) : list remote_item := merge_sort item_le ds.
Definition sorted_files (fs : list (remote_item * Z)) : list (remote_item * Z) :=
  merge_sort file_le fs.

(** The loop printing the directories; [walk] is the recursive call on a
    subdirectory, which gives the lines it prints. *)
Fixpoint print_dirs (walk : string → option (list string)) (path : string) (level : Z)
    (ndirs : nat) (no_files : bool) (i : nat) (ds : list remote_item)
    : option (list string) :=
  match ds with
  | [] => Some []
  | dir_path :: ds' =>
      let is_last := (Z.of_nat i =? Z.of_nat ndirs - 1)%Z && no_files in
      sub ← walk (child_path path (name dir_path));
      rest ← print_dirs walk path level ndirs no_files (S i) ds';
      Some ((entry_indent level is_last +:+ name dir_path +:+ "/") :: sub ++ rest)
  end.

Definition file_line (level : Z) (is_last : bool) (file_path : remote_item) (size : Z)
    (date : string) : string :=
  entry_indent level is_last +:+ name file_path +:+ " (" +:+ Py.format_comma size
  +:+ " bytes, " +:+ date +:+ ")".

(** The loop printing the files: the lines printed, and the exception of a
    failed date query, which ends the loop. *)
Fixpoint print_files (ftp : IoTFTPSConnection) (path : string) (level : Z)
    (nfiles : nat) (i : nat) (fs : list (remote_item * Z)) : list string * option exn :=
  match fs with
  | [] => ([], None)
  | (file_path, size) :: fs' =>
      let is_last := (Z.of_nat i =? Z.of_nat nfiles - 1)%Z in
      match get_file_date ftp (child_path path (name file_path)) with
      | Ok date =>
          let rest := print_files ftp path level nfiles (S i) fs' in
          (file_line level is_last file_path size date :: rest.1, rest.2)
      | Raise e => ([], Some e)
      end
  end.

Definition error_line (level : Z) (path : string) (e : exn) : string :=
  indent level +:+ "Error reading " +:+ path +:+ ": " +:+ e.

(** [print_directory_tree]: the lines it prints.  The remote tree need not be
    finite, so the recursion is bounded by [fuel]; [None] is a walk that
    needs more. *)
Fixpoint print_directory_tree (fuel : nat) (ftp : IoTFTPSConnection) (path : string)
    (level : Z) : option (list string) :=
  match fuel with
  | O => None
  | S fuel' =>
      match Ftp.list_files ftp path with
      | Raise e => Some [error_line level path e]
      | Ok items =>
          let dirs := (classify ftp path items).1 in
          let files := (classify ftp path items).2 in
          dirs_out ← print_dirs (λ p, print_directory_tree fuel' ftp p (level + 1))
                                path level (length dirs) (bool_decide (files = []))
                                0 (sorted_dirs dirs);
          let files_out := print_files ftp path level (length files) 0 (sorted_files files) in
          Some (dirs_out ++ files_out.1 ++
                match files_out.2 with
                | Some e => [error_line level path e]
                | None => []
                end)
      end
  end.

(** The body of [list_printer_filesystem], given the lines that the walk
    prints on the connection the file list gives. *)
Definition list_printer_filesystem_with (lines : list string) (env : Env)
    (host access_code : string) : M unit :=
  let settings := create_settings host access_code in
  let file_list := RemoteSDCardFileList env settings in
  try_except
    (ftp <- get_ftps_client settings file_list ;;
     print (newline +:+ "Scanning printer filesystem...") ;;;
     print (Py.repeat_str "=" 60) ;;;
     for_each lines print ;;;
     print (Py.repeat_str "=" 60))
    (λ e,
     print (newline +:+ "Error: " +:+ e) ;;;
     print (newline +:+ "Please verify:") ;;;
     print "1. The printer is powered on" ;;;
     print "2. The IP address is correct" ;;;
     print "3. The access code is correct" ;;;
     print "4. You're on the same network as the printer").

(** [list_printer_filesystem]: defined when the fuel is enough for the walk *)
Definition list_printer_filesystem (fuel : nat) (env : Env) (host access_code : string)
    : option (M unit) :=
  let settings := create_settings host access_code in
  let file_list := RemoteSDCardFileList env settings in
  match FileList.get_ftps_client file_list with
  | Ok ftp =>
      lines ← print_directory_tree fuel ftp "/" 0;
      Some (list_printer_filesystem_with lines env host access_code)
  | Raise e => Some (list_printer_filesystem_with [] env host access_code)
  end.

(** A remote tree that the walk gets through with [fuel] nested calls: the
    listing fails, or every child classified as a directory is such a tree
    for one call less. *)
Inductive finite_tree (ftp : IoTFTPSConnection) : string → nat → Prop :=
| finite_error path fuel e :
    Ftp.list_files ftp path = Raise e →
    finite_tree ftp path (S fuel)
| finite_listing path fuel items :
    Ftp.list_files ftp path = Ok items →
    (∀ dir, dir ∈ (classify ftp path items).1 →
            finite_tree ftp (child_path path (name dir)) fuel) →
    finite_tree ftp path (S fuel).


(** ** Notions used to state the properties *)

(** [m] leaves the component [proj] of the world as it was. *)
Definition keeps {T A} (proj : World → T) (m : M A) : Prop :=
  ∀ w, proj (m w).2 = proj w.

(** The temporary files other than [t]. *)
Definition temps_but (t : nat) (w : World) : gmap nat (list byte) := delete t (temps w).

(** Where [extract_required_files] saves the entry [filename]. *)
Definition save_path (env : Env) (remote_path filename : string) : string :=
  os_path.join (output_dir env remote_path) (os_path.basename filename).

(** Where [examine_3mf_structure] saves the entry [filename]. *)
Definition thumbnail_path (env : Env) (filename : string) : string :=
  os_path.join (thumbnails_dir env) (os_path.basename filename).

(** The bytes that opening and reading the member [name] gives, when both
    succeed. *)
Definition member_bytes (z : ZipArchive) (name : string) : option (list byte) :=
  match data <$> NameToInfo z !! name with
  | Some (Stored bs) => Some bs
  | _ => None
  end.

(** The member [name] can be extracted to [target]: it opens and reads, and
    [target] is not one of the directories [ds]. *)
Definition can_extract (z : ZipArchive) (ds : gset string) (target name : string) : Prop :=
  is_Some (member_bytes z name) ∧ target ∉ ds.

(** The local files after the writes [ws], made in that order. *)
Definition apply_writes (ws : list (string * list byte)) (fs : gmap string (list byte))
    : gmap string (list byte) :=
  foldl (λ m kv, <[kv.1 := kv.2]> m) fs ws.

(** The loop of [extract_required_files] over the names [l], among the
    directories [ds]: the writes it makes and how it ends. *)
Fixpoint extract_writes (env : Env) (remote_path : string) (z : ZipArchive) (ds : gset string)
    (l : list string) : list (string * list byte) * result unit :=
  match l with
  | [] => ([], Ok tt)
  | filename :: l' =>
      if decide (is_Some (NameToInfo z !! filename)) then
        let p := save_path env remote_path filename in
        match zip_open env z filename with
        | Raise e => ([], Raise e)
        | Ok src =>
            if decide (p ∈ ds) then ([], Raise (str env (IsADirectoryError p)))
            else match src with
                 | Raise e => ([(p, [])], Raise e)
                 | Ok bs =>
                     let rest := extract_writes env remote_path z ds l' in
                     ((p, bs) :: rest.1, rest.2)
                 end
        end
      else extract_writes env remote_path z ds l'
  end.



(** The loop of [examine_3mf_structure] over the entries [l], among the
    directories [ds]: the writes it makes, the lines it prints and how it
    ends. *)
Fixpoint examine_run (env : Env) (z : ZipArchive) (ds : gset string) (l : list ZipInfo)
    : list (string * list byte) * list string * result unit :=
  match l with
  | [] => ([], [], Ok tt)
  | info :: l' =>
      let head := [ "File: " +:+ filename info;
                    "  Size: " +:+ Py.format_comma (file_size info) +:+ " bytes" ] in
      if is_metadata_png (filename info) then
        let p := thumbnail_path env (filename info) in
        match zip_open env z (filename info) with
        | Raise e => ([], head, Raise e)
        | Ok image_file =>
            if decide (p ∈ ds) then ([], head, Raise (str env (IsADirectoryError p)))
            else match image_file with
                 | Raise e => ([(p, [])], head, Raise e)
                 | Ok bs =>
                     let rest := examine_run env z ds l' in
                     ((p, bs) :: rest.1.1,
                      head ++ ["  └── Extracted to: " +:+ p; ""] ++ rest.1.2,
                      rest.2)
                 end
        end
      else
        let rest := examine_run env z ds l' in
        (rest.1.1, head ++ [""] ++ rest.1.2, rest.2)
  end.

(** The size query on a child fails: the walker takes it for a directory. *)
Definition is_dir_of (ftp : IoTFTPSConnection) (path : string) (item : remote_item) : bool :=
  match get_file_size ftp (child_path path (name item)) with
  | Ok _ => false
  | Raise _ => true
  end.

(** The size query on a child succeeds: the walker takes it for a file of
    that size. *)
Definition sized_of (ftp : IoTFTPSConnection) (path : string) (item : remote_item)
    : option (remote_item * Z) :=
  match get_file_size ftp (child_path path (name item)) with
  | Ok size => Some (item, size)
  | Raise _ => None
  end.

(** The entry [name] of the archive decodes to the image [img]. *)
Definition decoded (env : Env) (zip_file : ZipArchive) (name : string) (img : Image env) : Prop :=
  ∃ bs, zip_read env zip_file name = Ok bs ∧ Image_open env bs = Ok img.

(** The entry [name] of the archive cannot be opened or read: [e] is raised. *)
Definition unreadable (env : Env) (zip_file : ZipArchive) (name : string) (e : exn) : Prop :=
  zip_read env zip_file name = Raise e.

(** The entry [name] of the archive does not decode: [Image.open] raises [e]. *)
Definition undecodable (env : Env) (zip_file : ZipArchive) (name : string) (e : exn) : Prop :=
  ∃ bs, zip_read env zip_file name = Ok bs ∧ Image_open env bs = Raise e.

(** One round of the loop of [list_3mf_files], as a change of the world. *)
Definition process_file (env : Env) (ftp : IoTFTPSConnection) (w : World) (file : FileInfo)
    : World :=
  ((logger_info (Processing (file_name file)) ;;;
    try_except (extract_required_files env ftp (path file))
               (λ e, logger_error (Failed_to_process (file_name file) e))) w).2.

(** The records of the per-file loop of [list_3mf_files], by kind. *)
Definition is_processing (r : log_record) : bool :=
  match r with INFO (Processing _) => true | _ => false end.

Definition is_failed (r : log_record) : bool :=
  match r with ERROR (Failed_to_process _ _) => true | _ => false end.

Definition is_finished (r : log_record) : bool :=
  match r with INFO Total_processing_time => true | _ => false end.

(** ** Fixtures: a printer, three archives and a file that is no archive.
       The printer answers at 192.168.178.70; at 192.168.178.71 it accepts
       the connection and refuses the listing; no other address connects. *)

Module Fixture.

Definition empty_world : World :=
  {| files := ∅; dirs := ∅; temps := ∅; log := []; stdout := []; requests := [] |}.


Definition png : list byte := [x89; x50; x4e; x47].

(** A well-formed archive; it has no [Metadata/top_1.png]. *)
Definition cube : ZipArchive :=
  [ {| filename := "3D/3dmodel.model"; file_size := 2; data := Stored [x3c; x3e] |};
    {| filename := "Metadata/plate_1.png"; file_size := 4; data := Stored png |};
    {| filename := "Metadata/Thumbnail_Small.PNG"; file_size := 5; data := Stored (png ++ [x01]) |};
    {| filename := "metadata/x.png"; file_size := 5; data := Stored (png ++ [x02]) |};
    {| filename := "Metadata/model_settings.config"; file_size := 1; data := Stored [x7b] |};
    {| filename := "Metadata/plate_1.png"; file_size := 5; data := Stored (png ++ [x03]) |};
    {| filename := "Auxiliaries/thumbnail_3mf.jpeg"; file_size := 2; data := Stored [xff; xd8] |} ].

(** An archive whose first member fails its check sum when it is read, and
    whose first thumbnail is encrypted. *)
Definition torn : ZipArchive :=
  [ {| filename := "Metadata/top_1.png"; file_size := 4;
       data := Read_raises "Bad CRC-32 for file 'Metadata/top_1.png'" |};
    {| filename := "Metadata/model_settings.config"; file_size := 1; data := Stored [x7b] |};
    {| filename := "Metadata/plate_1.png"; file_size := 4; data := Stored png |};
    {| filename := "Auxiliaries/thumbnail_3mf.png"; file_size := 4;
       data := Open_raises
         "File 'Auxiliaries/thumbnail_3mf.png' is encrypted, password required for extraction" |};
    {| filename := "Auxiliaries/thumbnail_small.png"; file_size := 4; data := Stored png |} ].

(** An archive whose second thumbnail is not an image. *)
Definition benchy : ZipArchive :=
  [ {| filename := "Metadata/thumbnail_a.png"; file_size := 4; data := Stored png |};
    {| filename := "Metadata/thumbnail_b.png"; file_size := 0; data := Stored [] |};
    {| filename := "Metadata/thumbnail_c.png"; file_size := 4; data := Stored png |} ].

Definition cube_bytes : list byte := [x50; x4b; x03; x04; x01].
Definition benchy_bytes : list byte := [x50; x4b; x03; x04; x02].
Definition torn_bytes : list byte := [x50; x4b; x03; x04; x04].
Definition text_bytes : list byte := [x68; x69].

Definition printer : IoTFTPSConnection :=
  {| Ftp.list_files := λ p,
       if String.eqb p "/" then Ok [ {| name := "fileA.3mf" |}; {| name := "dirA" |} ]
       else if String.eqb p "/dirA" then Ok []
       else Raise "550 Failed to change directory.";
     Ftp.download_file := λ p,
       if String.eqb p "/cache/cube.gcode.3mf" then Ok cube_bytes
       else if String.eqb p "/cache/benchy.3mf" then Ok benchy_bytes
       else if String.eqb p "/cache/torn.3mf" then Ok torn_bytes
       else if String.eqb p "/cache/notes.3mf" then Ok text_bytes
       else Raise "550 Failed to open file.";
     Ftp.get_file_size := λ p,
       if String.eqb p "/fileA.3mf" then Ok 100%Z else Raise "550 Could not get file size.";
     Ftp.get_file_date := λ p,
       if String.eqb p "/fileA.3mf" then Ok "2024-05-01 10:00:00"
       else Raise "550 Could not get file date." |}.


(** The texts of Python's errors, for the paths and names of these fixtures
    (none of them holds a quote or a backslash). *)
Definition os_error (e : builtin_error) : exn :=
  match e with
  | FileExistsError p => "[Errno 17] File exists: '" +:+ p +:+ "'"
  | IsADirectoryError p => "[Errno 21] Is a directory: '" +:+ p +:+ "'"
  | FileNotFoundError p => "[Errno 2] No such file or directory: '" +:+ p +:+ "'"
  | KeyError k =>
      String (ascii_of_nat 34) ("There is no item named '" +:+ k +:+ "' in the archive"
                                +:+ String (ascii_of_nat 34) "")
  end.

Definition listing : list FileInfo :=
  [ {| file_name := "notes.3mf"; path := "/cache/notes.3mf" |};
    {| file_name := "gone.3mf"; path := "/cache/gone.3mf" |};
    {| file_name := "torn.3mf"; path := "/cache/torn.3mf" |};
    {| file_name := "cube.gcode.3mf"; path := "/cache/cube.gcode.3mf" |} ].

Definition env : Env :=
  {| Image := list byte;
     ZipFile := λ bs,
       match bs with
       | x50 :: x4b :: x03 :: x04 :: x01 :: _ => Ok cube
       | x50 :: x4b :: x03 :: x04 :: x02 :: _ => Ok benchy
       | x50 :: x4b :: x03 :: x04 :: x04 :: _ => Ok torn
       | _ => Raise "File is not a zip file"
       end;
     Image_open := λ bs,
       match bs with
       | [] => Raise "cannot identify image file"
       | _ => Ok bs
       end;
     script_dir := "/opt/tools";
     required_iteration :=
       ["Metadata/top_1.png"; "Metadata/model_settings.config"; "Metadata/plate_1.png"];
     RemoteSDCardFileList := λ settings,
       match _settings settings !! "host" with
       | Some (SStr "192.168.178.70") =>
           {| FileList.get_ftps_client := Ok printer;
              FileList.list_files := λ _ _ _, Ok listing |}
       | Some (SStr "192.168.178.71") =>
           {| FileList.get_ftps_client := Ok printer;
              FileList.list_files := λ _ _ _, Raise "550 Permission denied." |}
       | _ =>
           {| FileList.get_ftps_client := Raise "timed out";
              FileList.list_files := λ _ _ _, Raise "not connected" |}
       end;
     temp_name := λ t, "/tmp/tmpq7_x2k" +:+ pretty t +:+ "a.3mf";
     str := os_error |}.

End Fixture.

(** A second card: two folders hold a file of one base name, with different
    archives behind them. *)
Module Reprint.

Definition cube_again : ZipArchive :=
  [ {| filename := "Metadata/top_1.png"; file_size := 5; data := Stored (Fixture.png ++ [x04]) |};
    {| filename := "Metadata/plate_1.png"; file_size := 5; data := Stored (Fixture.png ++ [x05]) |} ].

Definition cube_again_bytes : list byte := [x50; x4b; x03; x04; x03].

(** / → { model/ (cannot be listed), cache/ (empty) } *)
Definition printer : IoTFTPSConnection :=
  {| Ftp.list_files := λ p,
       if String.eqb p "/" then Ok [ {| name := "model" |}; {| name := "cache" |} ]
       else if String.eqb p "/cache" then Ok []
       else Raise "550 Permission denied.";
     Ftp.download_file := λ p,
       if String.eqb p "/cache/cube.gcode.3mf" then Ok Fixture.cube_bytes
       else if String.eqb p "/archive/cube.gcode.3mf" then Ok cube_again_bytes
       else Raise "550 Failed to open file.";
     Ftp.get_file_size := λ _, Raise "550 Could not get file size.";
     Ftp.get_file_date := λ _, Raise "550 Could not get file date." |}.

Definition env : Env :=
  {| Image := Image Fixture.env;
     ZipFile := λ bs,
       match bs with
       | x50 :: x4b :: x03 :: x04 :: x03 :: _ => Ok cube_again
       | _ => ZipFile Fixture.env bs
       end;
     Image_open := Image_open Fixture.env;
     script_dir := script_dir Fixture.env;
     required_iteration := required_iteration Fixture.env;
     RemoteSDCardFileList := RemoteSDCardFileList Fixture.env;
     temp_name := temp_name Fixture.env;
     str := str Fixture.env |}.

End Reprint.

(** * Properties *)

(** ** The library functions on sample values (results of the Python originals) *)

Example basename_samples :
  os_path.basename "/cache/Benchy.gcode.3mf" = "Benchy.gcode.3mf"
  ∧ os_path.basename "a.b/c" = "c"
  ∧ os_path.basename "/x/" = ""
  ∧ os_path.basename "Metadata/plate_1.png" = "plate_1.png".
Proof. repeat split. Qed.

Example splitext_samples :
  os_path.splitext_root "Benchy.gcode.3mf" = "Benchy.gcode"
  ∧ os_path.splitext_root "a.b/c" = "a.b/c"
  ∧ os_path.splitext_root ".3mf" = ".3mf"
  ∧ os_path.splitext_root "..3mf" = "..3mf"
  ∧ os_path.splitext_root "/a.b/..c.d" = "/a.b/..c"
  ∧ os_path.splitext_root "x.tar.gz" = "x.tar"
  ∧ os_path.splitext_root "noext" = "noext".
Proof. repeat split. Qed.

Example join_samples :
  os_path.join "/opt/tools" "x" = "/opt/tools/x"
  ∧ os_path.join "/opt/tools/" "x" = "/opt/tools/x"
  ∧ os_path.join "" "x" = "x"
  ∧ os_path.join "/opt" "/abs" = "/abs"
  ∧ os_path.join "a" "" = "a/".
Proof. repeat split. Qed.

Example format_comma_samples :
  Py.format_comma 0 = "0"
  ∧ Py.format_comma 100 = "100"
  ∧ Py.format_comma 1000 = "1,000"
  ∧ Py.format_comma 123456 = "123,456"
  ∧ Py.format_comma 1234567 = "1,234,567"
  ∧ Py.format_comma (-1234) = "-1,234".
Proof. repeat split. Qed.

Example child_path_samples :
  child_path "/" "dirA" = "/dirA"
  ∧ child_path "/cache/" "x" = "/cache/x"
  ∧ child_path "/cache" "x" = "/cache/x"
  ∧ child_path "" "x" = "/x"
  ∧ child_path "/a//b/" "c" = "/a/b/c"
  ∧ Py.replace_dslash "a///b//c" = "a//b/c"
  ∧ Py.replace_dslash "////" = "//".
Proof. repeat split. Qed.

Example entry_indent_samples :
  entry_indent 0 false = "" ∧ entry_indent 0 true = "  └── "
  ∧ entry_indent 1 false = "  ├── " ∧ entry_indent 1 true = "    └── "
  ∧ entry_indent 2 false = "  │     ├── " ∧ entry_indent 2 true = "  │       └── "
  ∧ Py.len (entry_indent 2 false) = 12%nat ∧ Py.len (entry_indent 2 true) = 14%nat.
Proof. repeat split. Qed.

Example name_tests_samples :
  Py.lower "Metadata/THUMBNAIL_Small.PNG" = "metadata/thumbnail_small.png"
  ∧ is_thumbnail "Metadata/THUMBNAIL_Small.PNG" = true
  ∧ is_thumbnail "Metadata/plate_1.png" = false
  ∧ is_thumbnail "thumbnail.txt" = false
  ∧ is_metadata_png "Metadata/plate_1.png" = true
  ∧ is_metadata_png "Metadata/model_settings.config" = false.
Proof. repeat split. Qed.

Example sorted_dirs_sample :
  name <$> sorted_dirs (Build_remote_item <$> ["b"; "a"; "Z"; "_x"; "10"; "9"])
  = ["10"; "9"; "Z"; "_x"; "a"; "b"].
Proof. reflexivity. Qed.

(** ** The monad and the world *)

Lemma bind_Ok {A B} (m : M A) (k : A → M B) w a w' :
  m w = (Ok a, w') → bind m k w = k a w'.
Proof. intros H. unfold bind. by rewrite H. Qed.

Lemma bind_Raise {A B} (m : M A) (k : A → M B) w e w' :
  m w = (Raise e, w') → bind m k w = (Raise e, w').
Proof. intros H. unfold bind. by rewrite H. Qed.

Lemma world_eq (w1 w2 : World) :
  files w1 = files w2 → dirs w1 = dirs w2 → temps w1 = temps w2 →
  log w1 = log w2 → stdout w1 = stdout w2 → requests w1 = requests w2 → w1 = w2.
Proof. destruct w1, w2; simpl; intros; subst; reflexivity. Qed.

Lemma new_temp_fresh w : temps w !! new_temp w = None.
Proof. apply not_elem_of_dom. unfold new_temp. apply (is_fresh (dom (temps w))). Qed.

Lemma delete_new_temp w bs : delete (new_temp w) (<[new_temp w := bs]> (temps w)) = temps w.
Proof. rewrite delete_insert_eq. apply delete_id, new_temp_fresh. Qed.

Lemma keeps_ret {T A} (proj : World → T) (a : A) : keeps proj (ret a).
Proof. by intros w. Qed.

Lemma keeps_raise {T A} (proj : World → T) e : keeps proj (raise (A := A) e).
Proof. by intros w. Qed.

Lemma keeps_lift {T A} (proj : World → T) (r : result A) : keeps proj (lift r).
Proof. by intros w. Qed.

Lemma keeps_bind {T A B} (proj : World → T) (m : M A) (k : A → M B) :
  keeps proj m → (∀ a, keeps proj (k a)) → keeps proj (bind m k).
Proof.
  intros Hm Hk w. unfold bind. specialize (Hm w).
  destruct (m w) as [[a|e] w']; simpl in *; [|done].
  by rewrite Hk.
Qed.

Lemma keeps_try_except {T A} (proj : World → T) (m : M A) (h : exn → M A) :
  keeps proj m → (∀ e, keeps proj (h e)) → keeps proj (try_except m h).
Proof.
  intros Hm Hh w. unfold try_except. specialize (Hm w).
  destruct (m w) as [[a|e] w']; simpl in *; [done|].
  by rewrite Hh.
Qed.

Lemma keeps_for_each {T A} (proj : World → T) (l : list A) (f : A → M unit) :
  (∀ x, keeps proj (f x)) → keeps proj (for_each l f).
Proof.
  intros Hf. induction l as [|x l IH]; simpl.
  - apply keeps_ret.
  - apply keeps_bind; auto.
Qed.

(** A component that does not look at the temporary files is kept by the
    block of a temporary file when the body keeps it. *)
Lemma keeps_NamedTemporaryFile {T A} (proj : World → T) (body : nat → M A) :
  (∀ f w, proj (set_temps f w) = proj w) →
  (∀ t, keeps proj (body t)) → keeps proj (NamedTemporaryFile body).
Proof.
  intros Hproj Hbody w. unfold NamedTemporaryFile.
  specialize (Hbody (new_temp w) (set_temps <[new_temp w:=[]]> w)).
  destruct (body _ _) as [r w']; simpl in *.
  by rewrite Hproj, Hbody, Hproj.
Qed.

(** The temporary files are as before the block when the body touches none
    but its own. *)
Lemma keeps_temps_NamedTemporaryFile {A} (body : nat → M A) :
  (∀ t, keeps (temps_but t) (body t)) → keeps temps (NamedTemporaryFile body).
Proof.
  intros Hbody w. unfold NamedTemporaryFile.
  specialize (Hbody (new_temp w) (set_temps <[new_temp w:=[]]> w)).
  destruct (body _ _) as [r w']; simpl in *.
  unfold temps_but in Hbody; simpl in Hbody.
  rewrite Hbody. apply delete_new_temp.
Qed.

Lemma keeps_print {T} (proj : World → T) line :
  (∀ f w, proj (set_stdout f w) = proj w) → keeps proj (print line).
Proof. intros H w. apply H. Qed.

Lemma keeps_logger_info {T} (proj : World → T) m :
  (∀ f w, proj (set_log f w) = proj w) → keeps proj (logger_info m).
Proof. intros H w. apply H. Qed.

Lemma keeps_logger_error {T} (proj : World → T) m :
  (∀ f w, proj (set_log f w) = proj w) → keeps proj (logger_error m).
Proof. intros H w. apply H. Qed.

Lemma keeps_makedirs {T} (proj : World → T) env d :
  (∀ f w, proj (set_dirs f w) = proj w) → keeps proj (makedirs env d).
Proof. intros H w. unfold makedirs. destruct (decide _); [done|apply H]. Qed.

Lemma keeps_open_wb {T} (proj : World → T) env p :
  (∀ f w, proj (set_files f w) = proj w) → keeps proj (open_wb env p).
Proof. intros H w. unfold open_wb. destruct (decide _); [done|apply H]. Qed.

Lemma keeps_file_write {T} (proj : World → T) p bs :
  (∀ f w, proj (set_files f w) = proj w) → keeps proj (file_write p bs).
Proof. intros H w. apply H. Qed.

Lemma keeps_get_ftps_client {T} (proj : World → T) settings file_list :
  (∀ f w, proj (set_requests f w) = proj w) → keeps proj (get_ftps_client settings file_list).
Proof. intros H w. apply H. Qed.

Lemma keeps_list_files {T} (proj : World → T) file_list folder extensions ftp :
  (∀ f w, proj (set_requests f w) = proj w) →
  keeps proj (list_files file_list folder extensions ftp).
Proof. intros H w. apply H. Qed.

Lemma keeps_getsize {T} (proj : World → T) env t : keeps proj (getsize env t).
Proof. intros w. unfold getsize. by destruct (temps w !! t). Qed.

Lemma keeps_open_ZipFile {T} (proj : World → T) env t : keeps proj (open_ZipFile env t).
Proof. intros w. unfold open_ZipFile. by destruct (temps w !! t). Qed.

Lemma keeps_download_file {T} (proj : World → T) ftp remote_path t :
  (∀ f w, proj (set_temps f w) = proj w) → keeps proj (download_file ftp remote_path t).
Proof.
  intros H w. unfold download_file.
  destruct (Ftp.download_file ftp remote_path); simpl; [apply H|done].
Qed.

Lemma keeps_temps_but_download_file ftp remote_path t :
  keeps (temps_but t) (download_file ftp remote_path t).
Proof.
  intros w. unfold download_file, temps_but.
  destruct (Ftp.download_file ftp remote_path); simpl; [|done].
  apply delete_insert_eq.
Qed.

Lemma keeps_thumbnails_try {T} (proj : World → T) env t : keeps proj (thumbnails_try env t).
Proof.
  intros w. unfold thumbnails_try.
  pose proof (keeps_open_ZipFile proj env t w) as H.
  by destruct (open_ZipFile env t w) as [[z|e] w'].
Qed.

(** Steps that decompose a frame condition along the structure of a procedure. *)
Ltac keeps_step :=
  first
    [ apply keeps_ret | apply keeps_raise | apply keeps_lift
    | apply keeps_getsize | apply keeps_open_ZipFile | apply keeps_thumbnails_try
    | apply keeps_temps_but_download_file
    | apply keeps_download_file; reflexivity
    | apply keeps_print; reflexivity
    | apply keeps_logger_info; reflexivity
    | apply keeps_logger_error; reflexivity
    | apply keeps_makedirs; reflexivity
    | apply keeps_open_wb; reflexivity
    | apply keeps_file_write; reflexivity
    | apply keeps_get_ftps_client; reflexivity
    | apply keeps_list_files; reflexivity
    | apply keeps_bind; [|intros ?]
    | apply keeps_try_except; [|intros ?]
    | apply keeps_for_each; intros ?
    | apply keeps_temps_NamedTemporaryFile; intros ?
    | apply keeps_NamedTemporaryFile; [reflexivity|intros ?]
    | match goal with
      | |- keeps _ (if ?b then _ else _) => destruct b
      | |- keeps _ (match ?r with Ok _ => _ | Raise _ => _ end) => destruct r
      end ].

Ltac solve_keeps := repeat keeps_step.

Lemma extract_required_files_keeps_temps env ftp remote_path :
  keeps temps (extract_required_files env ftp remote_path).
Proof. unfold extract_required_files. solve_keeps. Qed.

Lemma extract_thumbnails_keeps_temps env ftp remote_path :
  keeps temps (extract_thumbnails env ftp remote_path).
Proof. unfold extract_thumbnails. solve_keeps. Qed.

Lemma examine_3mf_structure_keeps_temps env ftp remote_path :
  keeps temps (examine_3mf_structure env ftp remote_path).
Proof. unfold examine_3mf_structure, examine_entry. solve_keeps. Qed.

(** ** C3 *)

Lemma NamedTemporaryFile_removed {A} (body : nat → M A) w :
  temps (NamedTemporaryFile body w).2 !! new_temp w = None.
Proof.
  unfold NamedTemporaryFile. destruct (body _ _) as [r w']. simpl.
  apply lookup_delete_eq.
Qed.

(** C3.  After [extract_required_files], [examine_3mf_structure] and
    [extract_thumbnails], whatever the result (a value or an exception), the
    temporary file created for the download is not among the temporary
    files, which are those of before the call. *)
Theorem C3_temporary_file_removed env ftp remote_path w :
  (let r := extract_required_files env ftp remote_path w in
   temps r.2 !! new_temp w = None ∧ temps r.2 = temps w)
  ∧ (let r := examine_3mf_structure env ftp remote_path w in
     temps r.2 !! new_temp w = None ∧ temps r.2 = temps w)
  ∧ (let r := extract_thumbnails env ftp remote_path w in
     temps r.2 !! new_temp w = None ∧ temps r.2 = temps w).
Proof.
  split_and!; intros r; subst r.
  - rewrite (extract_required_files_keeps_temps env ftp remote_path w).
    split; [apply new_temp_fresh|done].
  - rewrite (examine_3mf_structure_keeps_temps env ftp remote_path w).
    split; [apply new_temp_fresh|done].
  - rewrite (extract_thumbnails_keeps_temps env ftp remote_path w).
    split; [apply new_temp_fresh|done].
Qed.

(** ** Strings *)

Lemma append_cons c s t : String c s +:+ t = String c (s +:+ t).
Proof. reflexivity. Qed.

Lemma append_nil_l t : "" +:+ t = t.
Proof. reflexivity. Qed.

Lemma append_nil_r s : s +:+ "" = s.
Proof. induction s as [|c s IH]; [done|]. by rewrite append_cons, IH. Qed.

Lemma append_assoc s t u : (s +:+ t) +:+ u = s +:+ (t +:+ u).
Proof. induction s as [|c s IH]; [done|]. by rewrite !append_cons, IH. Qed.

Lemma prefix_spec p s : String.prefix p s = true ↔ ∃ b, s = p +:+ b.
Proof.
  revert s. induction p as [|c p IH]; intros s.
  - split; [|by destruct s]. intros _. by exists s.
  - destruct s as [|d s]; simpl.
    + split; [done|]. by intros [b Hb].
    + destruct (ascii_dec c d) as [->|Hne].
      * rewrite IH. split; intros [b Hb]; exists b.
        -- by rewrite append_cons, <- Hb.
        -- rewrite append_cons in Hb. by injection Hb.
      * split; [done|]. intros [b Hb]. rewrite append_cons in Hb. by injection Hb.
Qed.

Lemma endswith_spec s p : Py.endswith s p = true ↔ ∃ a, s = a +:+ p.
Proof.
  induction s as [|c s IH].
  - cbn [Py.endswith]. rewrite orb_false_r, String.eqb_eq. split.
    + intros <-. by exists "".
    + intros [a Ha]. destruct a; [done|]. by rewrite append_cons in Ha.
  - cbn [Py.endswith]. rewrite orb_true_iff, String.eqb_eq, IH. split.
    + intros [<-|[a ->]]; [by exists ""|]. by exists (String c a).
    + intros [[|d a] Ha]; [by left|].
      rewrite append_cons in Ha. injection Ha as -> ->. right. by exists a.
Qed.

Lemma contains_spec s p : Py.contains s p = true ↔ ∃ a b, s = a +:+ p +:+ b.
Proof.
  induction s as [|c s IH].
  - cbn [Py.contains]. rewrite orb_false_r, prefix_spec. split.
    + intros [b Hb]. by exists "", b.
    + intros ([|d a] & b & H); [by exists b|]. by rewrite append_cons in H.
  - cbn [Py.contains]. rewrite orb_true_iff, prefix_spec, IH. split.
    + intros [[b Hb]|(a & b & ->)]; [by exists "", b|]. by exists (String c a), b.
    + intros ([|d a] & b & H); [left; by exists b|].
      rewrite append_cons in H. injection H as -> ->. right. by exists a, b.
Qed.

(** ** The name table of an archive *)

Lemma NameToInfo_snoc z info :
  NameToInfo (z ++ [info]) = <[filename info := info]> (NameToInfo z).
Proof. unfold NameToInfo. by rewrite foldl_app. Qed.


Lemma NameToInfo_is_Some z f : f ∈ namelist z ↔ is_Some (NameToInfo z !! f).
Proof.
  unfold namelist. induction z as [|x z IH] using rev_ind.
  - unfold NameToInfo; simpl. rewrite lookup_empty, is_Some_alt. split; [|done].
    intros H. by apply elem_of_nil in H.
  - rewrite NameToInfo_snoc, fmap_app, elem_of_app. simpl.
    rewrite list_elem_of_singleton.
    destruct (decide (filename x = f)) as [<-|Hne].
    + rewrite lookup_insert_eq. split; [eauto|by right].
    + rewrite lookup_insert_ne by done. rewrite IH. split; [|by left].
      intros [H|H]; [done|]. by subst.
Qed.

(** Of the members with one name, the table holds the last. *)
Lemma NameToInfo_last z f info :
  NameToInfo z !! f = Some info ↔
  ∃ z1 z2, z = z1 ++ info :: z2 ∧ filename info = f ∧ f ∉ namelist z2.
Proof.
  induction z as [|x z IH] using rev_ind.
  - unfold NameToInfo; simpl. rewrite lookup_empty. split; [done|].
    intros (z1 & z2 & H & _). by destruct z1.
  - rewrite NameToInfo_snoc. destruct (decide (filename x = f)) as [<-|Hne].
    + rewrite lookup_insert_eq. split.
      * intros [= <-]. exists z, []. split_and!; [done..|]. apply not_elem_of_nil.
      * intros (z1 & z2 & Hz & Hf & Hnot).
        destruct z2 as [|y z2 _] using rev_ind.
        -- apply app_inj_tail in Hz as [_ ->]. done.
        -- rewrite app_comm_cons, app_assoc in Hz. apply app_inj_tail in Hz as [_ ->].
           exfalso. apply Hnot. unfold namelist. rewrite fmap_app. apply elem_of_app.
           right. by apply list_elem_of_singleton.
    + rewrite lookup_insert_ne by done. rewrite IH. split.
      * intros (z1 & z2 & -> & Hf & Hnot). exists z1, (z2 ++ [x]).
        split_and!; [by rewrite <- app_assoc|done|].
        unfold namelist in *. rewrite fmap_app, elem_of_app. intros [H|H]; [done|].
        apply list_elem_of_singleton in H. simpl in H. by subst.
      * intros (z1 & z2 & Hz & Hf & Hnot).
        destruct z2 as [|y z2 _] using rev_ind.
        -- apply app_inj_tail in Hz as [_ ->]. done.
        -- rewrite app_comm_cons, app_assoc in Hz. apply app_inj_tail in Hz as [-> ->].
           exists z1, z2. split_and!; [done..|].
           intros H. apply Hnot. unfold namelist in *. rewrite fmap_app, elem_of_app. by left.
Qed.

(** ** Paths *)






(** ** Writes *)

Lemma apply_writes_app ws1 ws2 fs :
  apply_writes (ws1 ++ ws2) fs = apply_writes ws2 (apply_writes ws1 fs).
Proof. apply foldl_app. Qed.





Lemma apply_writes_changed ws fs p :
  apply_writes ws fs !! p ≠ fs !! p →
  ∃ v, (p, v) ∈ ws ∧ apply_writes ws fs !! p = Some v.
Proof.
  induction ws as [|[q v] ws IH] using rev_ind; [done|].
  rewrite apply_writes_app. cbn [apply_writes foldl fst snd].
  destruct (decide (q = p)) as [->|Hne].
  - intros _. exists v. rewrite lookup_insert_eq. split; [|done].
    apply elem_of_app. right. by apply list_elem_of_singleton.
  - rewrite lookup_insert_ne by done. intros (v' & Hin & Hv)%IH.
    exists v'. split; [|done]. apply elem_of_app. by left.
Qed.

Lemma set_files_no_writes w : set_files (apply_writes []) w = w.
Proof. by destruct w. Qed.

(** ** Opening and reading a member *)

Lemma member_bytes_Some z name bs :
  member_bytes z name = Some bs ↔
  ∃ info, NameToInfo z !! name = Some info ∧ data info = Stored bs.
Proof.
  unfold member_bytes. destruct (NameToInfo z !! name) as [info|]; cbn.
  - split.
    + destruct (data info) eqn:Hd; intros [= <-]. by exists info.
    + intros (info' & [= <-] & ->). done.
  - split; [done|]. by intros (info & H & _).
Qed.

Lemma zip_open_member env z name bs :
  member_bytes z name = Some bs → zip_open env z name = Ok (Ok bs).
Proof.
  intros (info & Hinfo & Hdata)%member_bytes_Some.
  unfold zip_open. by rewrite Hinfo, Hdata.
Qed.

Lemma zip_read_member env z name bs :
  member_bytes z name = Some bs → zip_read env z name = Ok bs.
Proof. intros H. unfold zip_read. by rewrite (zip_open_member _ _ _ _ H). Qed.

Lemma zip_open_no_bytes env z name :
  member_bytes z name = None →
  (∃ e, zip_open env z name = Raise e) ∨ (∃ e, zip_open env z name = Ok (Raise e)).
Proof.
  unfold member_bytes, zip_open. destruct (NameToInfo z !! name) as [info|]; cbn.
  - destruct (data info); [done|left|right]; eauto.
  - intros _. left. eauto.
Qed.

(** ** The loop of extract_required_files *)

Lemma required_loop env remote_path z l w :
  for_each l (λ filename,
      if decide (is_Some (NameToInfo z !! filename)) then
        src <- lift (zip_open env z filename) ;;
        open_wb env (os_path.join (output_dir env remote_path) (os_path.basename filename)) ;;;
        bs <- lift src ;;
        file_write (os_path.join (output_dir env remote_path) (os_path.basename filename)) bs
      else ret tt) w
  = ((extract_writes env remote_path z (dirs w) l).2,
     set_files (apply_writes (extract_writes env remote_path z (dirs w) l).1) w).
Proof.
  revert w. induction l as [|f l IH]; intros w.
  - cbn. unfold ret. by rewrite set_files_no_writes.
  - cbn [for_each extract_writes]. unfold bind at 1.
    destruct (decide (is_Some (NameToInfo z !! f))) as [Hin|Hout].
    + fold (save_path env remote_path f).
      unfold bind at 1, lift at 1.
      destruct (zip_open env z f) as [src|e]; [|by rewrite set_files_no_writes].
      unfold bind at 1, open_wb.
      destruct (decide (save_path env remote_path f ∈ dirs w)) as [Hd|Hd];
        [by rewrite set_files_no_writes|].
      unfold bind at 1, lift at 1. destruct src as [bs|e]; [|done].
      unfold file_write. rewrite IH. cbn [dirs set_files fst snd].
      f_equal. apply world_eq; try reflexivity.
      cbn [files set_files apply_writes foldl fst snd]. by rewrite insert_insert_eq.
    + unfold ret. apply IH.
Qed.


Lemma extract_writes_Ok_inv env remote_path z ds l :
  (extract_writes env remote_path z ds l).2 = Ok tt →
  ∀ f, f ∈ l → is_Some (NameToInfo z !! f) → can_extract z ds (save_path env remote_path f) f.
Proof.
  induction l as [|f l IH]; intros Hok g Hg Hin; [by apply elem_of_nil in Hg|].
  cbn [extract_writes] in Hok.
  destruct (decide (is_Some (NameToInfo z !! f))) as [Hf|Hf].
  - destruct (member_bytes z f) as [bs|] eqn:Hbs.
    + rewrite (zip_open_member _ _ _ _ Hbs) in Hok.
      destruct (decide (save_path env remote_path f ∈ ds)) as [Hd|Hd]; [done|].
      apply elem_of_cons in Hg as [->|Hg]; [|by apply IH].
      split; [by rewrite Hbs|done].
    + exfalso. destruct (zip_open_no_bytes env z f Hbs) as [[e He]|[e He]];
        rewrite He in Hok; [done|].
      by destruct (decide (save_path env remote_path f ∈ ds)).
  - apply elem_of_cons in Hg as [->|Hg]; [done|by apply IH].
Qed.

(** Each write of the loop goes to the target of a required name that is
    an entry, a target that is no directory, and puts there the bytes of the
    member or, when its read failed, nothing. *)
Lemma extract_writes_targets env remote_path z ds l kv :
  kv ∈ (extract_writes env remote_path z ds l).1 →
  ∃ f, f ∈ l ∧ is_Some (NameToInfo z !! f) ∧ kv.1 = save_path env remote_path f
       ∧ (kv.1 ∉ ds)
       ∧ (kv.2 = [] ∨ member_bytes z f = Some kv.2).
Proof.
  induction l as [|f l IH]; cbn [extract_writes]; [by intros ?%elem_of_nil|].
  assert (Hrec : kv ∈ (extract_writes env remote_path z ds l).1 →
                 ∃ f0, f0 ∈ f :: l ∧ is_Some (NameToInfo z !! f0)
                       ∧ kv.1 = save_path env remote_path f0 ∧ (kv.1 ∉ ds)
                       ∧ (kv.2 = [] ∨ member_bytes z f0 = Some kv.2)).
  { intros (g & Hg & Hrest)%IH. exists g. split; [|done].
    apply elem_of_cons. by right. }
  destruct (decide (is_Some (NameToInfo z !! f))) as [Hf|Hf]; [|done].
  destruct (member_bytes z f) as [bytes|] eqn:Hbytes.
  - rewrite (zip_open_member _ _ _ _ Hbytes).
    destruct (decide (save_path env remote_path f ∈ ds)); cbn [fst];
      [by intros ?%elem_of_nil|].
    intros [->|Hkv]%elem_of_cons; [|by apply Hrec].
    exists f. split_and!; [apply elem_of_cons; by left|done..|by right].
  - destruct (zip_open_no_bytes env z f Hbytes) as [[e He]|[e He]]; rewrite He;
      [by intros ?%elem_of_nil|].
    destruct (decide (save_path env remote_path f ∈ ds)); cbn [fst];
      [by intros ?%elem_of_nil|].
    intros ->%list_elem_of_singleton.
    exists f. split_and!; [apply elem_of_cons; by left|done..|by left].
Qed.

(** ** The outcomes of extract_required_files *)

Lemma extract_required_files_blocked env ftp remote_path w :
  is_Some (files w !! output_dir env remote_path) →
  extract_required_files env ftp remote_path w
  = (Raise (str env (FileExistsError (output_dir env remote_path))), w).
Proof.
  intros H. unfold extract_required_files, bind at 1, makedirs.
  by destruct (decide (is_Some (files w !! output_dir env remote_path))).
Qed.

Lemma extract_required_files_download_fails env ftp remote_path w e :
  files w !! output_dir env remote_path = None →
  Ftp.download_file ftp remote_path = Raise e →
  extract_required_files env ftp remote_path w
  = (Raise e, set_dirs (λ ds, {[output_dir env remote_path]} ∪ ds) w).
Proof.
  intros Hfree Hdl. unfold extract_required_files, bind at 1, makedirs.
  destruct (decide (is_Some (files w !! output_dir env remote_path))) as [[? H]|_];
    [by rewrite Hfree in H|].
  unfold NamedTemporaryFile, bind at 1, download_file. rewrite Hdl. f_equal.
  apply world_eq; try reflexivity. simpl.
  apply (delete_new_temp (set_dirs _ w)).
Qed.

Lemma extract_required_files_not_a_zip env ftp remote_path w bs e :
  files w !! output_dir env remote_path = None →
  Ftp.download_file ftp remote_path = Ok bs →
  ZipFile env bs = Raise e →
  extract_required_files env ftp remote_path w
  = (Raise e,
     set_log (λ l, l ++ [INFO (Downloaded remote_path (Z.of_nat (length bs)))])
       (set_dirs (λ ds, {[output_dir env remote_path]} ∪ ds) w)).
Proof.
  intros Hfree Hdl Hzip. unfold extract_required_files, bind at 1, makedirs.
  destruct (decide (is_Some (files w !! output_dir env remote_path))) as [[? H]|_];
    [by rewrite Hfree in H|].
  unfold NamedTemporaryFile, bind at 1, download_file. rewrite Hdl.
  unfold bind at 1, getsize. simpl. rewrite lookup_insert_eq.
  unfold bind at 1, logger_info at 1.
  unfold bind at 1, open_ZipFile. simpl. rewrite lookup_insert_eq, Hzip.
  f_equal. apply world_eq; try reflexivity. simpl.
  rewrite insert_insert_eq. apply (delete_new_temp (set_dirs _ w)).
Qed.

Lemma extract_required_files_opens env ftp remote_path w bs z :
  files w !! output_dir env remote_path = None →
  Ftp.download_file ftp remote_path = Ok bs →
  ZipFile env bs = Ok z →
  let plan := extract_writes env remote_path z ({[output_dir env remote_path]} ∪ dirs w)
                (required_iteration env) in
  extract_required_files env ftp remote_path w
  = (plan.2,
     {| files := apply_writes plan.1 (files w);
        dirs := {[output_dir env remote_path]} ∪ dirs w;
        temps := temps w;
        log := log w ++
               [ INFO (Downloaded remote_path (Z.of_nat (length bs)));
                 INFO (Extracting (length (required_iteration env))
                         (foldr Z.add 0%Z
                            (omap (λ f, file_size <$> NameToInfo z !! f)
                                  (required_iteration env)))) ]
               ++ match plan.2 with
                  | Ok _ => [INFO Extraction_completed; INFO Total_processing_time]
                  | Raise _ => []
                  end;
        stdout := stdout w;
        requests := requests w |}).
Proof.
  intros Hfree Hdl Hzip plan. unfold extract_required_files, bind at 1, makedirs.
  destruct (decide (is_Some (files w !! output_dir env remote_path))) as [[? H]|_];
    [by rewrite Hfree in H|].
  unfold NamedTemporaryFile, bind at 1, download_file. rewrite Hdl.
  unfold bind at 1, getsize. simpl. rewrite lookup_insert_eq.
  unfold bind at 1, logger_info at 1.
  unfold bind at 1, open_ZipFile. simpl. rewrite lookup_insert_eq, Hzip.
  unfold bind at 1, logger_info at 1.
  unfold bind at 1. rewrite required_loop. cbn [dirs set_log set_temps set_dirs].
  fold plan. destruct plan.2 as [[]|e] eqn:Hplan.
  - unfold bind at 1, logger_info. f_equal.
    apply world_eq; simpl; try reflexivity.
    + rewrite insert_insert_eq. apply (delete_new_temp (set_dirs _ w)).
    + by rewrite <- !app_assoc.
  - f_equal. apply world_eq; simpl; try reflexivity.
    + rewrite insert_insert_eq. apply (delete_new_temp (set_dirs _ w)).
    + by rewrite <- !app_assoc.
Qed.

(** ** The name of the output directory *)











(** ** What the extraction loop leaves in the files when it gets through *)




(** ** C1 *)




(** ** C10 *)




(** ** The loop of list_3mf_files *)

(** What [extract_required_files] adds to the log: no record of the loop
    around it, and the record of the processing time exactly when it
    returns. *)
Lemma extract_required_files_log env ftp remote_path w :
  ∃ new, log (extract_required_files env ftp remote_path w).2 = log w ++ new
         ∧ List.filter is_processing new = []
         ∧ List.filter is_failed new = []
         ∧ length (List.filter is_finished new)
           = match (extract_required_files env ftp remote_path w).1 with
             | Ok _ => 1%nat
             | Raise _ => 0%nat
             end.
Proof.
  destruct (files w !! output_dir env remote_path) as [bytes|] eqn:Hfree.
  { rewrite extract_required_files_blocked by eauto.
    exists []. by rewrite app_nil_r. }
  destruct (Ftp.download_file ftp remote_path) as [bs|e] eqn:Hdl.
  - destruct (ZipFile env bs) as [z|e] eqn:Hzip.
    + rewrite (extract_required_files_opens _ _ _ _ _ _ Hfree Hdl Hzip). cbn [fst snd log].
      eexists. split; [reflexivity|].
      by destruct (extract_writes _ _ _ _ _).2 as [[]|e].
    + rewrite (extract_required_files_not_a_zip _ _ _ _ _ _ Hfree Hdl Hzip).
      by eexists [_].
  - rewrite (extract_required_files_download_fails _ _ _ _ _ Hfree Hdl).
    exists []. by rewrite app_nil_r.
Qed.

Lemma extract_required_files_keeps_stdout env ftp remote_path :
  keeps stdout (extract_required_files env ftp remote_path).
Proof. unfold extract_required_files. solve_keeps. Qed.

Lemma extract_required_files_keeps_requests env ftp remote_path :
  keeps requests (extract_required_files env ftp remote_path).
Proof. unfold extract_required_files. solve_keeps. Qed.

(** One round of the loop returns normally, whatever happens to the file. *)
Lemma process_file_run env ftp file w :
  (logger_info (Processing (file_name file)) ;;;
   try_except (extract_required_files env ftp (path file))
              (λ e, logger_error (Failed_to_process (file_name file) e))) w
  = (Ok tt, process_file env ftp w file).
Proof.
  unfold process_file, bind, try_except, logger_info.
  by destruct (extract_required_files _ _ _ _) as [[[]|e] w'].
Qed.

(** The log after one round: the record of the file, the records of
    [extract_required_files], and the record of its failure when it raised. *)
Lemma process_file_log env ftp file w :
  let run := extract_required_files env ftp (path file)
               (set_log (λ l, l ++ [INFO (Processing (file_name file))]) w) in
  log (process_file env ftp w file)
  = log run.2 ++ match run.1 with
                 | Ok _ => []
                 | Raise e => [ERROR (Failed_to_process (file_name file) e)]
                 end.
Proof.
  unfold process_file, bind, try_except, logger_info. cbn zeta.
  destruct (extract_required_files _ _ _ _) as [[[]|e] w']; cbn; [|done].
  by rewrite app_nil_r.
Qed.

Lemma process_files_run env ftp files w :
  for_each files (λ file,
    logger_info (Processing (file_name file)) ;;;
    try_except (extract_required_files env ftp (path file))
               (λ e, logger_error (Failed_to_process (file_name file) e))) w
  = (Ok tt, foldl (process_file env ftp) w files).
Proof.
  revert w. induction files as [|file files IH]; intros w; [done|].
  cbn [for_each foldl]. by rewrite (bind_Ok _ _ _ _ _ (process_file_run env ftp file w)).
Qed.

(** The records that the loop adds: for each file its [Processing] record
    and one closing record. *)
Lemma process_files_log env ftp files w :
  ∃ added, log (foldl (process_file env ftp) w files) = log w ++ added
    ∧ (∀ file, file ∈ files → INFO (Processing (file_name file)) ∈ added)
    ∧ length (List.filter is_processing added) = length files
    ∧ (length (List.filter is_failed added) + length (List.filter is_finished added))%nat
      = length files.
Proof.
  revert w. induction files as [|file files IH]; intros w.
  - exists []. split_and!; [by rewrite app_nil_r| |done..]. by intros file ?%elem_of_nil.
  - cbn [foldl]. destruct (IH (process_file env ftp w file)) as (added & Hlog & Hin & Hp & Hc).
    rewrite Hlog, process_file_log. cbn zeta.
    destruct (extract_required_files_log env ftp (path file)
                (set_log (λ l, l ++ [INFO (Processing (file_name file))]) w))
      as (new & Hnew & Hnp & Hnf & Hfin).
    rewrite Hnew. cbn [log set_log].
    set (closing := match (extract_required_files env ftp (path file) _).1 with
                    | Ok _ => []
                    | Raise e => [ERROR (Failed_to_process (file_name file) e)]
                    end).
    exists ([INFO (Processing (file_name file))] ++ new ++ closing ++ added).
    assert (Hclosing : List.filter is_processing closing = []
                       ∧ (length (List.filter is_failed closing)
                          + length (List.filter is_finished new))%nat = 1%nat
                       ∧ List.filter is_finished closing = []).
    { subst closing. rewrite Hfin.
      by destruct (extract_required_files env ftp (path file) _).1. }
    destruct Hclosing as (Hcp & Hcf & Hcd).
    split_and!.
    + by rewrite <- !app_assoc.
    + intros f [->|Hf]%elem_of_cons.
      * apply elem_of_app. left. by apply list_elem_of_singleton.
      * rewrite !elem_of_app. do 3 right. by apply Hin.
    + rewrite !List.filter_app, Hnp, Hcp, !length_app. cbn. by rewrite Hp.
    + rewrite !List.filter_app, Hnf, Hcd, !length_app. cbn [List.filter is_failed is_finished length app].
      lia.
Qed.

Lemma process_file_keeps {T} (proj : World → T) env ftp :
  (∀ remote_path, keeps proj (extract_required_files env ftp remote_path)) →
  (∀ f w, proj (set_log f w) = proj w) →
  ∀ files w, proj (foldl (process_file env ftp) w files) = proj w.
Proof.
  intros Hk Hlog files. induction files as [|file files IH]; intros w; [done|].
  cbn [foldl]. rewrite IH. unfold process_file, bind, try_except, logger_info.
  pose proof (Hk (path file) (set_log (λ l, l ++ [INFO (Processing (file_name file))]) w)) as H.
  destruct (extract_required_files _ _ _ _) as [[[]|e] w']; cbn [snd] in *.
  - by rewrite H, Hlog.
  - unfold logger_error. cbn [snd]. by rewrite Hlog, H, Hlog.
Qed.

(** The three courses of [list_3mf_files]. *)
Lemma list_3mf_files_run env host access_code w :
  let settings := create_settings host access_code in
  let file_list := RemoteSDCardFileList env settings in
  list_3mf_files env host access_code w
  = (Ok tt,
     match FileList.get_ftps_client file_list with
     | Raise e =>
         set_log (λ l, l ++ [ERROR (Connection_error e); INFO Total_operation_completed])
           (set_requests (λ rs, rs ++ [Connect settings]) w)
     | Ok ftp =>
         match FileList.list_files file_list "/" ".3mf" ftp with
         | Raise e =>
             set_log (λ l, l ++ [ERROR (Connection_error e); INFO Total_operation_completed])
               (set_requests (λ rs, rs ++ [Connect settings; List_files "/" ".3mf"]) w)
         | Ok files =>
             set_log (λ l, l ++ [INFO Total_operation_completed])
               (foldl (process_file env ftp)
                  (set_log (λ l, l ++ [INFO (Found_3MF_files (length files))])
                     (set_requests (λ rs, rs ++ [Connect settings; List_files "/" ".3mf"]) w))
                  files)
         end
     end).
Proof.
  intros settings file_list. unfold list_3mf_files. fold settings file_list.
  unfold bind at 1, try_except at 1, bind at 1, get_ftps_client at 1.
  destruct (FileList.get_ftps_client file_list) as [ftp|e].
  - unfold bind at 1, list_files at 1.
    destruct (FileList.list_files file_list "/" ".3mf" ftp) as [files|e].
    + unfold bind at 1, logger_info at 1. rewrite process_files_run.
      unfold logger_info. do 3 f_equal.
      apply world_eq; try reflexivity. cbn. by rewrite <- app_assoc.
    + unfold logger_error, logger_info. f_equal. apply world_eq; try reflexivity.
      * cbn. by rewrite <- app_assoc.
      * cbn. by rewrite <- app_assoc.
  - unfold logger_error, logger_info. f_equal. apply world_eq; try reflexivity.
    cbn. by rewrite <- app_assoc.
Qed.

(** When [extract_required_files] raises: a failed download, a file that is
    no archive and a required entry that cannot be opened or read each make
    it raise, in whatever state it is started; the error is that of the
    download or of the archive unless a regular file is in the way of the
    output directory. *)
Lemma extract_required_files_raises env ftp remote_path w :
  let r := extract_required_files env ftp remote_path w in
  (∀ e0, Ftp.download_file ftp remote_path = Raise e0 →
     ∃ e, r.1 = Raise e ∧ (files w !! output_dir env remote_path = None → e = e0))
  ∧ (∀ bs e0, Ftp.download_file ftp remote_path = Ok bs → ZipFile env bs = Raise e0 →
     ∃ e, r.1 = Raise e ∧ (files w !! output_dir env remote_path = None → e = e0))
  ∧ (∀ bs z f, Ftp.download_file ftp remote_path = Ok bs → ZipFile env bs = Ok z →
       f ∈ required_iteration env → f ∈ namelist z → member_bytes z f = None →
       ∃ e, r.1 = Raise e).
Proof.
  intros r. subst r.
  destruct (files w !! output_dir env remote_path) as [bytes|] eqn:Hfree.
  { rewrite extract_required_files_blocked by eauto. split_and!; intros; by eexists. }
  split_and!.
  - intros e0 Hdl. rewrite (extract_required_files_download_fails _ _ _ _ _ Hfree Hdl).
    by exists e0.
  - intros bs e0 Hdl Hzip.
    rewrite (extract_required_files_not_a_zip _ _ _ _ _ _ Hfree Hdl Hzip). by exists e0.
  - intros bs z f Hdl Hzip Hreq Hin Hnone.
    rewrite (extract_required_files_opens _ _ _ _ _ _ Hfree Hdl Hzip). cbn [fst].
    destruct (extract_writes _ _ _ _ _).2 as [[]|e] eqn:Hplan; [|by exists e].
    destruct (extract_writes_Ok_inv _ _ _ _ _ Hplan f Hreq) as [[bytes Hb] _].
    + by apply NameToInfo_is_Some.
    + by rewrite Hnone in Hb.
Qed.

(** The log of [list_3mf_files] around one file of the listing. *)
Lemma list_3mf_files_log_at env host access_code w ftp pre file post :
  let settings := create_settings host access_code in
  let file_list := RemoteSDCardFileList env settings in
  FileList.get_ftps_client file_list = Ok ftp →
  FileList.list_files file_list "/" ".3mf" ftp = Ok (pre ++ file :: post) →
  let before :=
    foldl (process_file env ftp)
      (set_log (λ l, l ++ [INFO (Found_3MF_files (length (pre ++ file :: post)))])
         (set_requests (λ rs, rs ++ [Connect settings; List_files "/" ".3mf"]) w))
      pre in
  let run :=
    extract_required_files env ftp (path file)
      (set_log (λ l, l ++ [INFO (Processing (file_name file))]) before) in
  ∃ earlier new after,
    log before = log w ++ [INFO (Found_3MF_files (length (pre ++ file :: post)))] ++ earlier
    ∧ log run.2 = log before ++ [INFO (Processing (file_name file))] ++ new
    ∧ log (list_3mf_files env host access_code w).2
      = log run.2
        ++ match run.1 with
           | Ok _ => []
           | Raise e => [ERROR (Failed_to_process (file_name file) e)]
           end
        ++ after ++ [INFO Total_operation_completed]
    ∧ ∀ file', file' ∈ post → INFO (Processing (file_name file')) ∈ after.
Proof.
  intros settings file_list Hc Hl before run.
  rewrite list_3mf_files_run. fold settings file_list. rewrite Hc, Hl.
  cbn [snd log set_log]. rewrite foldl_app. cbn [foldl]. fold before.
  destruct (process_files_log env ftp post (process_file env ftp before file))
    as (after & Hafter & Hin & _).
  destruct (process_files_log env ftp pre
              (set_log (λ l, l ++ [INFO (Found_3MF_files (length (pre ++ file :: post)))])
                 (set_requests (λ rs, rs ++ [Connect settings; List_files "/" ".3mf"]) w)))
    as (earlier & Hearlier & _).
  fold before in Hearlier.
  destruct (extract_required_files_log env ftp (path file)
              (set_log (λ l, l ++ [INFO (Processing (file_name file))]) before))
    as (new & Hnew & _).
  fold run in Hnew.
  exists earlier, new, after. split_and!.
  - rewrite Hearlier. cbn [log set_log set_requests]. by rewrite <- app_assoc.
  - rewrite Hnew. cbn [log set_log]. by rewrite <- app_assoc.
  - rewrite Hafter, process_file_log. cbn zeta. fold run.
    by rewrite <- !app_assoc.
  - done.
Qed.

(** ** C5 *)

(** C5, as stated, fails in its last part: the connection can be
    established and the whole operation still be given up, when the listing
    call raises; the outer handler logs it as a connection error and no file
    is processed. *)
Lemma C5_counterexample :
  FileList.get_ftps_client
    (RemoteSDCardFileList Fixture.env (create_settings "192.168.178.71" "33055062"))
  = Ok Fixture.printer
  ∧ list_3mf_files Fixture.env "192.168.178.71" "33055062" Fixture.empty_world
    = (Ok tt,
       set_log (λ l, l ++ [ERROR (Connection_error "550 Permission denied.");
                           INFO Total_operation_completed])
         (set_requests (λ rs, rs ++ [Connect (create_settings "192.168.178.71" "33055062");
                                     List_files "/" ".3mf"])
            Fixture.empty_world)).
Proof. split; reflexivity. Qed.

(** C5, amended.  In [list_3mf_files], when the connection is established
    and the listing obtained, the procedure returns normally and every file
    of the listing is processed, in order.  For each file: its [Processing]
    record is logged and [extract_required_files] is run on it in the state
    the files before it have left; when that run raises, the error is logged
    with the name of the file; the [Processing] records of all the files
    after it follow in the log.  A failed download, a downloaded file that is
    no archive, and a required entry that cannot be opened or read each make
    the run raise.  The whole operation is given up when the connection
    cannot be established, and also when the listing call raises: the error
    is logged as a connection error, nothing is processed and the procedure
    returns. *)
Theorem C5_file_failures_do_not_stop_the_batch env host access_code w :
  let settings := create_settings host access_code in
  let file_list := RemoteSDCardFileList env settings in
  let r := list_3mf_files env host access_code w in
  (∀ e, FileList.get_ftps_client file_list = Raise e →
     r = (Ok tt,
          set_log (λ l, l ++ [ERROR (Connection_error e); INFO Total_operation_completed])
            (set_requests (λ rs, rs ++ [Connect settings]) w)))
  ∧ (∀ ftp e,
       FileList.get_ftps_client file_list = Ok ftp →
       FileList.list_files file_list "/" ".3mf" ftp = Raise e →
       r = (Ok tt,
            set_log (λ l, l ++ [ERROR (Connection_error e); INFO Total_operation_completed])
              (set_requests (λ rs, rs ++ [Connect settings; List_files "/" ".3mf"]) w)))
  ∧ (∀ ftp files,
       FileList.get_ftps_client file_list = Ok ftp →
       FileList.list_files file_list "/" ".3mf" ftp = Ok files →
       r.1 = Ok tt
       ∧ ∀ pre file post, files = pre ++ file :: post →
           let before :=
             foldl (process_file env ftp)
               (set_log (λ l, l ++ [INFO (Found_3MF_files (length files))])
                  (set_requests (λ rs, rs ++ [Connect settings; List_files "/" ".3mf"]) w))
               pre in
           let run :=
             extract_required_files env ftp (path file)
               (set_log (λ l, l ++ [INFO (Processing (file_name file))]) before) in
           (∃ earlier new after,
              log before = log w ++ [INFO (Found_3MF_files (length files))] ++ earlier
              ∧ log run.2 = log before ++ [INFO (Processing (file_name file))] ++ new
              ∧ log r.2 = log run.2
                          ++ match run.1 with
                             | Ok _ => []
                             | Raise e => [ERROR (Failed_to_process (file_name file) e)]
                             end
                          ++ after ++ [INFO Total_operation_completed]
              ∧ ∀ file', file' ∈ post → INFO (Processing (file_name file')) ∈ after)
           ∧ (∀ e0, Ftp.download_file ftp (path file) = Raise e0 → ∃ e, run.1 = Raise e)
           ∧ (∀ bs e0, Ftp.download_file ftp (path file) = Ok bs →
                ZipFile env bs = Raise e0 → ∃ e, run.1 = Raise e)
           ∧ (∀ bs z f, Ftp.download_file ftp (path file) = Ok bs → ZipFile env bs = Ok z →
                f ∈ required_iteration env → f ∈ namelist z → member_bytes z f = None →
                ∃ e, run.1 = Raise e)).
Proof.
  intros settings file_list r. subst r. split_and!.
  - intros e He. rewrite list_3mf_files_run. fold settings file_list. by rewrite He.
  - intros ftp e Hc Hl. rewrite list_3mf_files_run. fold settings file_list.
    by rewrite Hc, Hl.
  - intros ftp files Hc Hl. split; [by rewrite list_3mf_files_run|].
    intros pre file post -> before run.
    destruct (extract_required_files_raises env ftp (path file)
                (set_log (λ l, l ++ [INFO (Processing (file_name file))]) before))
      as (Hdl & Hzip & Hmember). fold run in Hdl, Hzip, Hmember.
    split_and!.
    + apply (list_3mf_files_log_at env host access_code w ftp pre file post Hc Hl).
    + intros e0 H. destruct (Hdl e0 H) as (e & He & _). eauto.
    + intros bs e0 H1 H2. destruct (Hzip bs e0 H1 H2) as (e & He & _). eauto.
    + done.
Qed.

Lemma C5_witness :
  let r := list_3mf_files Fixture.env "192.168.178.70" "33055062" Fixture.empty_world in
  r.1 = Ok tt
  ∧ ERROR (Failed_to_process "torn.3mf" "Bad CRC-32 for file 'Metadata/top_1.png'") ∈ log r.2
  ∧ INFO (Processing "cube.gcode.3mf") ∈ log r.2.
Proof.
  destruct (C5_file_failures_do_not_stop_the_batch Fixture.env "192.168.178.70" "33055062"
              Fixture.empty_world) as (_ & _ & H).
  destruct (H Fixture.printer Fixture.listing eq_refl eq_refl) as (Hok & Hall).
  split; [exact Hok|].
  destruct (Hall [ {| file_name := "notes.3mf"; path := "/cache/notes.3mf" |};
                   {| file_name := "gone.3mf"; path := "/cache/gone.3mf" |} ]
                 {| file_name := "torn.3mf"; path := "/cache/torn.3mf" |}
                 [ {| file_name := "cube.gcode.3mf"; path := "/cache/cube.gcode.3mf" |} ]
                 eq_refl) as ((earlier & new & after & _ & _ & Hlog & Hpost) & _).
  rewrite Hlog. split.
  - apply elem_of_app. right. apply elem_of_app. left.
    apply list_elem_of_singleton. reflexivity.
  - rewrite !elem_of_app. right. right. left.
    apply (Hpost {| file_name := "cube.gcode.3mf"; path := "/cache/cube.gcode.3mf" |}).
    by apply list_elem_of_singleton.
Defined.

(** ** C8 *)

(** C8.  When the address is the placeholder 192.168.1.100 or the access code
    is the placeholder 12345678, [main] logs an error and returns: the world
    is the one of before with that one record, so no connection is requested
    and no file, directory or temporary file is touched.  Otherwise it logs
    that it connects and goes through [list_3mf_files]: a connection is
    requested for the settings made of the two values; when it is
    established the listing of the 3MF files of the root folder is
    requested, and when that is obtained the number of files found and each
    file's [Processing] record are logged; the log ends with the record of
    the total time.  With the two values written in the script, [main]
    requests a connection to 192.168.178.70. *)
Theorem C8_placeholder_guard env ip code w :
  (ip = "192.168.1.100" ∨ code = "12345678" →
     main_with ip code env w
     = (Ok tt, set_log (λ l, l ++ [ERROR Please_configure]) w))
  ∧ (ip ≠ "192.168.1.100" → code ≠ "12345678" →
     let settings := create_settings ip code in
     let file_list := RemoteSDCardFileList env settings in
     let r := main_with ip code env w in
     r.1 = Ok tt
     ∧ (∃ new, log r.2 = log w ++ [INFO (Connecting_to_printer ip)] ++ new
                         ++ [INFO Total_operation_completed])
     ∧ (∃ more, requests r.2 = requests w ++ Connect settings :: more)
     ∧ (∀ e, FileList.get_ftps_client file_list = Raise e →
          requests r.2 = requests w ++ [Connect settings]
          ∧ ERROR (Connection_error e) ∈ log r.2)
     ∧ (∀ ftp, FileList.get_ftps_client file_list = Ok ftp →
          requests r.2 = requests w ++ [Connect settings; List_files "/" ".3mf"])
     ∧ (∀ ftp files, FileList.get_ftps_client file_list = Ok ftp →
          FileList.list_files file_list "/" ".3mf" ftp = Ok files →
          INFO (Found_3MF_files (length files)) ∈ log r.2
          ∧ ∀ file, file ∈ files → INFO (Processing (file_name file)) ∈ log r.2))
  ∧ (∃ more, requests (main env w).2
             = requests w ++ Connect (create_settings "192.168.178.70" "33055062") :: more).
Proof.
  assert (Hgo : ∀ ip code, ip ≠ "192.168.1.100" → code ≠ "12345678" →
            main_with ip code env w
            = list_3mf_files env ip code
                (set_log (λ l, l ++ [INFO (Connecting_to_printer ip)]) w)).
  { clear ip code. intros ip code Hip Hcode. unfold main_with.
    apply String.eqb_neq in Hip, Hcode. by rewrite Hip, Hcode. }
  assert (Hreq : ∀ ip code w0,
            ∃ more, requests (list_3mf_files env ip code w0).2
                    = requests w0 ++ Connect (create_settings ip code) :: more).
  { intros ip' code' w0. rewrite list_3mf_files_run. cbn [snd].
    destruct (FileList.get_ftps_client _) as [ftp|e]; [|by exists []].
    destruct (FileList.list_files _ _ _ _) as [files|e]; [|by eexists [_]].
    exists [List_files "/" ".3mf"]. cbn [requests set_log].
    by rewrite (process_file_keeps requests env ftp
                  (extract_required_files_keeps_requests env ftp)). }
  split_and!.
  - intros H. unfold main_with.
    destruct H as [->| ->]; [done|].
    by rewrite String.eqb_refl, orb_true_r.
  - intros Hip Hcode settings file_list r. subst r. rewrite (Hgo ip code Hip Hcode).
    rewrite list_3mf_files_run. fold settings file_list. cbn [fst snd].
    split_and!.
    + done.
    + assert (Hfail : ∀ e rs,
        ∃ new, log (set_log (λ l, l ++ [ERROR (Connection_error e);
                                         INFO Total_operation_completed])
                      (set_requests rs
                         (set_log (λ l, l ++ [INFO (Connecting_to_printer ip)]) w)))
               = log w ++ [INFO (Connecting_to_printer ip)] ++ new
                 ++ [INFO Total_operation_completed]).
      { intros e rs. exists [ERROR (Connection_error e)].
        cbn [log set_log set_requests]. by rewrite <- !app_assoc. }
      destruct (FileList.get_ftps_client file_list) as [ftp|e]; [|apply Hfail].
      destruct (FileList.list_files file_list "/" ".3mf" ftp) as [files|e];
        [|apply Hfail].
      destruct (process_files_log env ftp files
                  (set_log (λ l, l ++ [INFO (Found_3MF_files (length files))])
                     (set_requests (λ rs, rs ++ [Connect settings; List_files "/" ".3mf"])
                        (set_log (λ l, l ++ [INFO (Connecting_to_printer ip)]) w))))
        as (added & Hlog & _).
      exists (INFO (Found_3MF_files (length files)) :: added).
      cbn [log set_log]. rewrite Hlog. cbn [log set_log set_requests].
      by rewrite <- !app_assoc.
    + destruct (Hreq ip code (set_log (λ l, l ++ [INFO (Connecting_to_printer ip)]) w))
        as [more Hmore].
      rewrite list_3mf_files_run in Hmore. by exists more.
    + intros e ->. split; [done|]. cbn [log set_log set_requests].
      rewrite !elem_of_app. right. apply elem_of_cons. by left.
    + intros ftp ->.
      destruct (FileList.list_files file_list "/" ".3mf" ftp) as [files|e]; [|done].
      cbn [requests set_log].
      by rewrite (process_file_keeps requests env ftp
                    (extract_required_files_keeps_requests env ftp)).
    + intros ftp files -> ->.
      destruct (process_files_log env ftp files
                  (set_log (λ l, l ++ [INFO (Found_3MF_files (length files))])
                     (set_requests (λ rs, rs ++ [Connect settings; List_files "/" ".3mf"])
                        (set_log (λ l, l ++ [INFO (Connecting_to_printer ip)]) w))))
        as (added & Hlog & Hin & _).
      cbn [log set_log]. rewrite Hlog. cbn [log set_log set_requests]. split.
      * rewrite !elem_of_app. left. left. right. by apply list_elem_of_singleton.
      * intros file Hfile. rewrite !elem_of_app. left. right. by apply Hin.
  - unfold main. rewrite Hgo by done.
    destruct (Hreq PRINTER_IP ACCESS_CODE
                (set_log (λ l, l ++ [INFO (Connecting_to_printer PRINTER_IP)]) w))
      as [more Hmore].
    by exists more.
Qed.

Lemma C8_witness :
  main_with "192.168.1.100" "33055062" Fixture.env Fixture.empty_world
  = (Ok tt, set_log (λ l, l ++ [ERROR Please_configure]) Fixture.empty_world)
  ∧ requests (main_with "192.168.178.70" "33055062" Fixture.env Fixture.empty_world).2
    = [Connect (create_settings "192.168.178.70" "33055062"); List_files "/" ".3mf"].
Proof.
  destruct (C8_placeholder_guard Fixture.env "192.168.1.100" "33055062"
              Fixture.empty_world) as (H1 & _ & _).
  destruct (C8_placeholder_guard Fixture.env "192.168.178.70" "33055062"
              Fixture.empty_world) as (_ & H2 & _).
  split.
  - apply H1. left. reflexivity.
  - destruct H2 as (_ & _ & _ & _ & Hreq & _); [discriminate..|].
    exact (Hreq Fixture.printer eq_refl).
Defined.

(** ** The outcomes of extract_thumbnails *)

Lemma extract_thumbnails_download_fails env ftp remote_path w e :
  Ftp.download_file ftp remote_path = Raise e →
  extract_thumbnails env ftp remote_path w = (Raise e, w).
Proof.
  intros Hdl. unfold extract_thumbnails, NamedTemporaryFile.
  unfold bind at 1, download_file. rewrite Hdl. f_equal.
  apply world_eq; try reflexivity. apply delete_new_temp.
Qed.

Lemma extract_thumbnails_not_a_zip env ftp remote_path w bs e :
  Ftp.download_file ftp remote_path = Ok bs →
  ZipFile env bs = Raise e →
  extract_thumbnails env ftp remote_path w
  = (Ok [], set_stdout (λ o, o ++ ["  └── Error processing ZIP: " +:+ e]) w).
Proof.
  intros Hdl Hzip. unfold extract_thumbnails, NamedTemporaryFile.
  unfold bind at 1, download_file. rewrite Hdl.
  unfold bind at 1, thumbnails_try, open_ZipFile. simpl.
  rewrite lookup_insert_eq, Hzip. simpl.
  f_equal. apply world_eq; try reflexivity. simpl.
  rewrite insert_insert_eq. apply delete_new_temp.
Qed.

Lemma extract_thumbnails_run env ftp remote_path w bs z :
  Ftp.download_file ftp remote_path = Ok bs →
  ZipFile env bs = Ok z →
  extract_thumbnails env ftp remote_path w
  = (Ok (thumbnails_loop env z (namelist z) []).1,
     match (thumbnails_loop env z (namelist z) []).2 with
     | Ok _ => w
     | Raise e => set_stdout (λ o, o ++ ["  └── Error processing ZIP: " +:+ e]) w
     end).
Proof.
  intros Hdl Hzip. unfold extract_thumbnails, NamedTemporaryFile.
  unfold bind at 1, download_file. rewrite Hdl.
  unfold bind at 1, thumbnails_try, open_ZipFile. cbn [temps set_temps].
  rewrite lookup_insert_eq, Hzip.
  destruct (thumbnails_loop env z (namelist z) []) as [imgs [[]|e]]; cbn.
  - f_equal. apply world_eq; try reflexivity. cbn.
    rewrite insert_insert_eq. apply delete_new_temp.
  - f_equal. apply world_eq; try reflexivity. cbn.
    rewrite insert_insert_eq. apply delete_new_temp.
Qed.

Lemma elem_of_filter_bool {A} (f : A → bool) (l : list A) x :
  x ∈ List.filter f l ↔ x ∈ l ∧ f x = true.
Proof. rewrite !list_elem_of_In. apply filter_In. Qed.

(** The loop collects the images of the matching names in order, and stops
    at the first one that cannot be read or decoded. *)
Lemma thumbnails_loop_spec env z names acc :
  ∃ imgs,
    (thumbnails_loop env z names acc).1 = acc ++ imgs
    ∧ Forall2 (decoded env z) (take (length imgs) (List.filter is_thumbnail names)) imgs
    ∧ match (thumbnails_loop env z names acc).2 with
      | Ok _ => length imgs = length (List.filter is_thumbnail names)
      | Raise e =>
          ∃ n, List.filter is_thumbnail names !! length imgs = Some n
               ∧ (unreadable env z n e ∨ undecodable env z n e)
      end.
Proof.
  revert acc. induction names as [|n names IH]; intros acc.
  - exists []. simpl. split_and!; [by rewrite app_nil_r|constructor|done].
  - cbn [thumbnails_loop List.filter]. destruct (is_thumbnail n) eqn:Hn; [|apply IH].
    destruct (zip_read env z n) as [bs|e] eqn:Hread.
    + destruct (Image_open env bs) as [img|e] eqn:Hopen.
      * destruct (IH (acc ++ [img])) as (imgs & Hout & Hall & Hend).
        exists (img :: imgs). split_and!.
        -- by rewrite Hout, <- app_assoc.
        -- simpl. constructor; [by exists bs|done].
        -- destruct (thumbnails_loop env z names (acc ++ [img])).2 as [[]|e]; simpl.
           ++ by rewrite Hend.
           ++ done.
      * exists []. simpl. split_and!; [by rewrite app_nil_r|constructor|].
        exists n. split; [done|]. right. by exists bs.
    + exists []. simpl. split_and!; [by rewrite app_nil_r|constructor|].
      exists n. split; [done|]. by left.
Qed.

Lemma is_thumbnail_spec n :
  is_thumbnail n = true ↔
  (∃ a b, Py.lower n = a +:+ "thumbnail" +:+ b)
  ∧ ∃ a, Py.lower n = a +:+ ".png" ∨ Py.lower n = a +:+ ".jpg" ∨ Py.lower n = a +:+ ".jpeg".
Proof.
  unfold is_thumbnail.
  rewrite andb_true_iff, !orb_true_iff, contains_spec, !endswith_spec.
  split; intros [H1 H2]; (split; [done|]).
  - destruct H2 as [[[a H]|[a H]]|[a H]]; exists a; auto.
  - destruct H2 as [a [H|[H|H]]]; [left; left|left; right|right]; by exists a.
Qed.

(** ** C7 *)

(** C7, as stated, fails: an archive may hold an entry with a thumbnail name
    that [Image.open] cannot decode, or that cannot be read from the
    archive; the images of that entry and of the matching entries after it
    are missing from the list.  In the first archive three entries match and
    one image is returned; in the second two entries match and none is. *)
Lemma C7_counterexample :
  Ftp.download_file Fixture.printer "/cache/benchy.3mf" = Ok Fixture.benchy_bytes
  ∧ ZipFile Fixture.env Fixture.benchy_bytes = Ok Fixture.benchy
  ∧ List.filter is_thumbnail (namelist Fixture.benchy)
    = ["Metadata/thumbnail_a.png"; "Metadata/thumbnail_b.png"; "Metadata/thumbnail_c.png"]
  ∧ (extract_thumbnails Fixture.env Fixture.printer "/cache/benchy.3mf"
       Fixture.empty_world).1 = Ok [Fixture.png]
  ∧ Ftp.download_file Fixture.printer "/cache/torn.3mf" = Ok Fixture.torn_bytes
  ∧ ZipFile Fixture.env Fixture.torn_bytes = Ok Fixture.torn
  ∧ List.filter is_thumbnail (namelist Fixture.torn)
    = ["Auxiliaries/thumbnail_3mf.png"; "Auxiliaries/thumbnail_small.png"]
  ∧ (extract_thumbnails Fixture.env Fixture.printer "/cache/torn.3mf"
       Fixture.empty_world).1 = Ok [].
Proof. split_and!; reflexivity. Qed.

(** C7, amended.  For a downloaded file that opens as an archive,
    [extract_thumbnails] returns normally a list that holds, in the order of
    the archive's listing, the decoded image of each entry whose name
    contains thumbnail and ends with .png, .jpg or .jpeg (both without
    regard to case), up to the first such entry that cannot be read from the
    archive or does not decode; there it prints the error and keeps the
    images collected so far.  When every such entry is read and decodes the
    list has exactly one image for each of them and nothing is printed.
    Other entries contribute nothing. *)
Theorem C7_thumbnails_up_to_first_failure env ftp remote_path w bs z :
  Ftp.download_file ftp remote_path = Ok bs →
  ZipFile env bs = Ok z →
  let matching := List.filter is_thumbnail (namelist z) in
  let r := extract_thumbnails env ftp remote_path w in
  (∀ n, n ∈ matching ↔
        n ∈ namelist z
        ∧ (∃ a b, Py.lower n = a +:+ "thumbnail" +:+ b)
        ∧ ∃ a, Py.lower n = a +:+ ".png" ∨ Py.lower n = a +:+ ".jpg"
               ∨ Py.lower n = a +:+ ".jpeg")
  ∧ ∃ imgs,
    r.1 = Ok imgs
    ∧ Forall2 (decoded env z) (take (length imgs) matching) imgs
    ∧ (length imgs = length matching ∧ stdout r.2 = stdout w
       ∨ ∃ n e, matching !! length imgs = Some n
                ∧ (unreadable env z n e ∨ undecodable env z n e)
                ∧ stdout r.2 = stdout w ++ ["  └── Error processing ZIP: " +:+ e])
    ∧ ((∀ n, n ∈ matching → ∃ img, decoded env z n img) →
       Forall2 (decoded env z) matching imgs ∧ stdout r.2 = stdout w).
Proof.
  intros Hdl Hzip matching r. subst r.
  split.
  { intros n. unfold matching. by rewrite elem_of_filter_bool, is_thumbnail_spec. }
  rewrite (extract_thumbnails_run _ _ _ _ _ _ Hdl Hzip). cbn [fst snd].
  destruct (thumbnails_loop_spec env z (namelist z) []) as (imgs & Hout & Hall & Hend).
  rewrite app_nil_l in Hout. fold matching in Hall, Hend.
  exists imgs. rewrite Hout.
  assert (Hcases :
    length imgs = length matching
      ∧ (thumbnails_loop env z (namelist z) []).2 = Ok tt
    ∨ ∃ n e, matching !! length imgs = Some n
             ∧ (unreadable env z n e ∨ undecodable env z n e)
             ∧ (thumbnails_loop env z (namelist z) []).2 = Raise e).
  { destruct (thumbnails_loop env z (namelist z) []).2 as [[]|e]; [by left|].
    destruct Hend as (n & Hn & Hfail). right. by exists n, e. }
  split_and!; [done|done| |].
  - destruct Hcases as [[Hlen ->]|(n & e & Hn & Hdec & ->)]; [by left|].
    right. by exists n, e.
  - intros Hdecodes. destruct Hcases as [[Hlen ->]|(n & e & Hn & Hdec & _)].
    + split; [|done]. by rewrite Hlen, firstn_all in Hall.
    + exfalso. destruct (Hdecodes n) as (img & bs1 & Hr1 & Ho1).
      { by apply (list_elem_of_lookup_2 _ _ _) in Hn. }
      destruct Hdec as [Hread|(bs2 & Hr2 & Ho2)]; [unfold unreadable in Hread|];
        congruence.
Qed.

Lemma C7_witness :
  let r := extract_thumbnails Fixture.env Fixture.printer "/cache/cube.gcode.3mf"
             Fixture.empty_world in
  ∃ imgs, r.1 = Ok imgs
    ∧ Forall2 (decoded Fixture.env Fixture.cube)
        ["Metadata/Thumbnail_Small.PNG"; "Auxiliaries/thumbnail_3mf.jpeg"] imgs.
Proof.
  destruct (C7_thumbnails_up_to_first_failure Fixture.env Fixture.printer
              "/cache/cube.gcode.3mf" Fixture.empty_world Fixture.cube_bytes Fixture.cube
              eq_refl eq_refl) as (_ & imgs & Hok & _ & _ & Hall).
  exists imgs. split; [exact Hok|].
  apply Hall. intros n Hn.
  change (n ∈ ["Metadata/Thumbnail_Small.PNG"; "Auxiliaries/thumbnail_3mf.jpeg"]) in Hn.
  apply elem_of_cons in Hn as [->|Hn].
  - exists (Fixture.png ++ [x01]), (Fixture.png ++ [x01]). split; reflexivity.
  - apply list_elem_of_singleton in Hn as ->.
    exists [xff; xd8], [xff; xd8]. split; reflexivity.
Defined.

(** ** The loop of examine_3mf_structure *)


Lemma examine_loop env z l w :
  for_each l (examine_entry env z) w
  = ((examine_run env z (dirs w) l).2,
     {| files := apply_writes (examine_run env z (dirs w) l).1.1 (files w);
        dirs := dirs w;
        temps := temps w;
        log := log w;
        stdout := stdout w ++ (examine_run env z (dirs w) l).1.2;
        requests := requests w |}).
Proof.
  revert w. induction l as [|info l IH]; intros w.
  - cbn. unfold ret. f_equal. destruct w; cbn. by rewrite app_nil_r.
  - cbn [for_each examine_run]. unfold bind at 1, examine_entry.
    unfold bind at 1, print at 1. unfold bind at 1, print at 1. unfold bind at 1.
    destruct (is_metadata_png (filename info)).
    + fold (thumbnail_path env (filename info)).
      unfold bind at 1, lift at 1.
      destruct (zip_open env z (filename info)) as [image_file|e].
      2:{ cbn. f_equal. apply world_eq; try reflexivity. cbn. by rewrite <- app_assoc. }
      unfold bind at 1, open_wb. cbn [dirs set_stdout].
      destruct (decide (thumbnail_path env (filename info) ∈ dirs w)) as [Hd|Hd].
      { cbn. f_equal. apply world_eq; try reflexivity. cbn. by rewrite <- app_assoc. }
      unfold bind at 1, lift at 1. destruct image_file as [bs|e].
      2:{ cbn. f_equal. apply world_eq; try reflexivity. cbn. by rewrite <- app_assoc. }
      unfold bind at 1, file_write. unfold print at 1. unfold print at 1.
      rewrite IH. cbn [dirs set_files set_stdout fst snd]. f_equal.
      apply world_eq; try reflexivity.
      * cbn [files set_files set_stdout apply_writes foldl fst snd].
        by rewrite insert_insert_eq.
      * cbn [stdout set_files set_stdout]. by rewrite <- !app_assoc.
    + unfold ret. unfold print at 1. rewrite IH. cbn [dirs set_stdout fst snd]. f_equal.
      apply world_eq; try reflexivity.
      cbn [stdout set_stdout]. by rewrite <- !app_assoc.
Qed.


(** ** The outcomes of examine_3mf_structure *)

Lemma examine_3mf_structure_blocked env ftp remote_path w :
  is_Some (files w !! thumbnails_dir env) →
  examine_3mf_structure env ftp remote_path w
  = (Raise (str env (FileExistsError (thumbnails_dir env))), w).
Proof.
  intros H. unfold examine_3mf_structure, bind at 1, makedirs.
  by destruct (decide (is_Some (files w !! thumbnails_dir env))).
Qed.

Lemma examine_3mf_structure_download_fails env ftp remote_path w e :
  files w !! thumbnails_dir env = None →
  Ftp.download_file ftp remote_path = Raise e →
  examine_3mf_structure env ftp remote_path w
  = (Raise e,
     {| files := files w;
        dirs := {[thumbnails_dir env]} ∪ dirs w;
        temps := temps w;
        log := log w;
        stdout := stdout w ++
          [ "Downloading " +:+ remote_path +:+ " to " +:+ temp_name env (new_temp w)
            +:+ "..." ];
        requests := requests w |}).
Proof.
  intros Hfree Hdl. unfold examine_3mf_structure, bind at 1, makedirs.
  destruct (decide (is_Some (files w !! thumbnails_dir env))) as [[? H]|_];
    [by rewrite Hfree in H|].
  unfold NamedTemporaryFile, bind at 1, print at 1.
  unfold bind at 1, download_file. rewrite Hdl. f_equal.
  apply world_eq; try reflexivity.
  cbn [temps set_temps set_stdout set_dirs]. apply (delete_new_temp (set_dirs _ w)).
Qed.

Lemma examine_3mf_structure_not_a_zip env ftp remote_path w bs e :
  files w !! thumbnails_dir env = None →
  Ftp.download_file ftp remote_path = Ok bs →
  ZipFile env bs = Raise e →
  examine_3mf_structure env ftp remote_path w
  = (Ok tt,
     {| files := files w;
        dirs := {[thumbnails_dir env]} ∪ dirs w;
        temps := temps w;
        log := log w;
        stdout := stdout w ++
          [ "Downloading " +:+ remote_path +:+ " to " +:+ temp_name env (new_temp w)
            +:+ "...";
            newline +:+ "Examining 3MF structure and extracting thumbnails:";
            Py.repeat_str "-" 60;
            "Error examining ZIP: " +:+ e ];
        requests := requests w |}).
Proof.
  intros Hfree Hdl Hzip. unfold examine_3mf_structure, bind at 1, makedirs.
  destruct (decide (is_Some (files w !! thumbnails_dir env))) as [[? H]|_];
    [by rewrite Hfree in H|].
  unfold NamedTemporaryFile, bind at 1, print at 1.
  unfold bind at 1, download_file. rewrite Hdl.
  unfold bind at 1, print at 1.
  unfold bind at 1, print at 1.
  unfold try_except, bind at 1, open_ZipFile. cbn [temps set_temps set_stdout set_dirs].
  rewrite lookup_insert_eq, Hzip. unfold print.
  f_equal. apply world_eq; try reflexivity.
  - cbn [temps set_temps set_stdout set_dirs]. rewrite insert_insert_eq.
    apply (delete_new_temp (set_dirs _ w)).
  - cbn [stdout set_temps set_stdout set_dirs]. by rewrite <- !app_assoc.
Qed.

Lemma examine_3mf_structure_opens env ftp remote_path w bs z :
  files w !! thumbnails_dir env = None →
  Ftp.download_file ftp remote_path = Ok bs →
  ZipFile env bs = Ok z →
  let run := examine_run env z ({[thumbnails_dir env]} ∪ dirs w) z in
  examine_3mf_structure env ftp remote_path w
  = (Ok tt,
     {| files := apply_writes run.1.1 (files w);
        dirs := {[thumbnails_dir env]} ∪ dirs w;
        temps := temps w;
        log := log w;
        stdout := stdout w ++
          [ "Downloading " +:+ remote_path +:+ " to " +:+ temp_name env (new_temp w)
            +:+ "...";
            newline +:+ "Examining 3MF structure and extracting thumbnails:";
            Py.repeat_str "-" 60 ]
          ++ run.1.2
          ++ match run.2 with
             | Ok _ => []
             | Raise e => ["Error examining ZIP: " +:+ e]
             end;
        requests := requests w |}).
Proof.
  intros Hfree Hdl Hzip run. unfold examine_3mf_structure, bind at 1, makedirs.
  destruct (decide (is_Some (files w !! thumbnails_dir env))) as [[? H]|_];
    [by rewrite Hfree in H|].
  unfold NamedTemporaryFile, bind at 1, print at 1.
  unfold bind at 1, download_file. rewrite Hdl.
  unfold bind at 1, print at 1.
  unfold bind at 1, print at 1.
  unfold try_except, bind at 1, open_ZipFile. cbn [temps set_temps set_stdout set_dirs].
  rewrite lookup_insert_eq, Hzip. rewrite examine_loop.
  cbn [dirs set_temps set_stdout set_dirs]. fold run.
  destruct run.2 as [[]|e].
  - f_equal. apply world_eq; try reflexivity.
    + cbn [temps set_temps set_stdout set_dirs]. rewrite insert_insert_eq.
      apply (delete_new_temp (set_dirs _ w)).
    + cbn [stdout set_temps set_stdout set_dirs]. by rewrite app_nil_r, <- !app_assoc.
  - unfold print. f_equal. apply world_eq; try reflexivity.
    + cbn [temps set_temps set_stdout set_dirs]. rewrite insert_insert_eq.
      apply (delete_new_temp (set_dirs _ w)).
    + cbn [stdout set_temps set_stdout set_dirs]. by rewrite <- !app_assoc.
Qed.

(** ** C9 *)





(** ** C2 *)




(** ** The classification of the children of a directory *)

Lemma classify_fold ftp path items acc :
  foldl (classify_step ftp path) acc items
  = (acc.1 ++ List.filter (is_dir_of ftp path) items,
     acc.2 ++ omap (sized_of ftp path) items).
Proof.
  revert acc. induction items as [|item items IH]; intros [ds fs].
  - cbn. by rewrite !app_nil_r.
  - cbn [foldl List.filter omap list_omap]. rewrite IH.
    unfold classify_step, is_dir_of, sized_of.
    destruct (get_file_size ftp (child_path path (name item))); cbn.
    + by rewrite <- app_assoc.
    + by rewrite <- app_assoc.
Qed.

Lemma classify_spec ftp path items :
  classify ftp path items
  = (List.filter (is_dir_of ftp path) items, omap (sized_of ftp path) items).
Proof. unfold classify. by rewrite classify_fold. Qed.







(** ** The orders of the two sorts *)

#[global] Instance item_le_total : Total item_le.
Proof. intros a b. unfold item_le. apply (total String.le). Qed.

#[global] Instance item_le_trans : Transitive item_le.
Proof. intros a b c. unfold item_le. apply (transitivity (R := String.le)). Qed.

#[global] Instance file_le_total : Total file_le.
Proof.
  intros [a s] [b t]. unfold file_le. cbn.
  destruct (decide (name a = name b)) as [Heq|Hne].
  - destruct (Z.le_ge_cases s t) as [H|H].
    + left. right. by split.
    + right. right. by split.
  - destruct (total String.le (name a) (name b)) as [H|H].
    + left. left. by split.
    + right. left. split; [by apply not_eq_sym|done].
Qed.

Lemma sorted_dirs_Sorted ds : Sorted item_le (sorted_dirs ds).
Proof. apply (Sorted_merge_sort item_le). Qed.

Lemma sorted_dirs_Permutation ds : sorted_dirs ds ≡ₚ ds.
Proof. apply merge_sort_Permutation. Qed.

Lemma sorted_files_Sorted fs : Sorted file_le (sorted_files fs).
Proof. apply (Sorted_merge_sort file_le). Qed.

Lemma sorted_files_Permutation fs : sorted_files fs ≡ₚ fs.
Proof. apply merge_sort_Permutation. Qed.

(** ** The prefixes of the tree *)

Lemma rev_app_append s t : String.rev_app s t = String.rev s +:+ t.
Proof.
  unfold String.rev. revert t. induction s as [|c s IH]; intros t; [done|].
  cbn [String.rev_app]. rewrite (IH (String c t)), (IH (String c "")).
  by rewrite append_assoc.
Qed.

Lemma rev_cons c s : String.rev (String c s) = String.rev s +:+ String c "".
Proof. unfold String.rev at 1. cbn [String.rev_app]. apply rev_app_append. Qed.

Lemma rev_append s t : String.rev (s +:+ t) = String.rev t +:+ String.rev s.
Proof.
  induction s as [|c s IH].
  - by rewrite append_nil_l, append_nil_r.
  - by rewrite append_cons, !rev_cons, IH, append_assoc.
Qed.

Lemma rev_involutive s : String.rev (String.rev s) = s.
Proof.
  induction s as [|c s IH]; [done|].
  by rewrite rev_cons, rev_append, IH.
Qed.

Lemma drop_last_rev_continuation c r :
  Py.is_continuation c = true → Py.drop_last_rev (String c r) = Py.drop_last_rev r.
Proof. intros H. cbn [Py.drop_last_rev]. by rewrite H. Qed.

Lemma drop_last_rev_lead c r :
  Py.is_continuation c = false → Py.drop_last_rev (String c r) = r.
Proof. intros H. cbn [Py.drop_last_rev]. by rewrite H. Qed.

(** Cutting the last four characters of an interior prefix leaves its two
    leading blanks. *)
Lemma slice_interior r : Py.slice_to_minus 4 (r +:+ "  ├── ") = r +:+ "  ".
Proof.
  unfold Py.slice_to_minus. rewrite rev_append.
  set (l := String.rev "  ├── "). vm_compute in l. subst l.
  rewrite !append_cons, append_nil_l. unfold Nat.iter. cbn [nat_rect].
  repeat first [ rewrite drop_last_rev_lead by reflexivity
               | rewrite drop_last_rev_continuation by reflexivity ].
  change (String " " (String " " (String.rev r))) with ("  " +:+ String.rev r).
  by rewrite rev_append, rev_involutive.
Qed.

Lemma entry_indent_last level :
  entry_indent level true
  = if (0 <? level)%Z
    then Py.repeat_str "  │   " (Z.to_nat (level - 1)) +:+ "    └── "
    else "  └── ".
Proof.
  unfold entry_indent, indent. destruct (0 <? level)%Z; [|done].
  by rewrite slice_interior, append_assoc.
Qed.

(** The prefix of a last sibling ends with the corner glyph, the prefix of
    the others does not. *)
Lemma entry_indent_glyph level :
  Py.endswith (entry_indent level true) "└── " = true
  ∧ Py.endswith (entry_indent level false) "└── " = false
  ∧ entry_indent level true ≠ entry_indent level false.
Proof.
  assert (H1 : Py.endswith (entry_indent level true) "└── " = true).
  { rewrite entry_indent_last. apply endswith_spec. destruct (0 <? level)%Z.
    - exists (Py.repeat_str "  │   " (Z.to_nat (level - 1)) +:+ "    ").
      by rewrite append_assoc.
    - by exists "  ". }
  assert (H2 : Py.endswith (entry_indent level false) "└── " = false).
  { unfold entry_indent, indent. destruct (0 <? level)%Z; [|done].
    apply not_true_is_false. intros [a Ha]%endswith_spec.
    apply (f_equal String.rev) in Ha. rewrite !rev_append in Ha.
    set (l := String.rev "  ├── ") in Ha. vm_compute in l. subst l.
    set (l := String.rev "└── ") in Ha. vm_compute in l. subst l.
    rewrite !append_cons in Ha. discriminate Ha. }
  split_and!; [done..|]. intros Heq. rewrite Heq in H1. congruence.
Qed.

(** ** The two printing loops of the walker *)

Lemma is_last_flag i n : (Z.of_nat i =? Z.of_nat n - 1)%Z = bool_decide (S i = n).
Proof.
  case_bool_decide as H.
  - apply Z.eqb_eq. lia.
  - apply Z.eqb_neq. lia.
Qed.

Lemma print_dirs_spec walk path level n nf i ds subs :
  Forall2 (λ d sub, walk (child_path path (name d)) = Some sub) ds subs →
  print_dirs walk path level n nf i ds
  = Some (concat (imap (λ j ds,
            (entry_indent level (bool_decide (S (i + j) = n) && nf)
             +:+ name ds.1 +:+ "/") :: ds.2)
          (zip ds subs))).
Proof.
  intros H. revert i. induction H as [|d sub ds subs Hd _ IH]; intros i; [done|].
  cbn [print_dirs zip zip_with imap concat fst snd]. rewrite Hd, IH. cbn.
  rewrite is_last_flag, Nat.add_0_r. do 4 f_equal.
  apply imap_ext. intros j x _. cbn. by rewrite Nat.add_succ_r.
Qed.

Lemma print_files_spec ftp path level n i fs :
  let out := print_files ftp path level n i fs in
  (∀ j line, out.1 !! j = Some line →
     ∃ file size date,
       fs !! j = Some (file, size)
       ∧ get_file_date ftp (child_path path (name file)) = Ok date
       ∧ line = file_line level (bool_decide (S (i + j) = n)) file size date)
  ∧ match out.2 with
    | None => length out.1 = length fs
    | Some e =>
        ∃ file size, fs !! length out.1 = Some (file, size)
                     ∧ get_file_date ftp (child_path path (name file)) = Raise e
    end.
Proof.
  revert i. induction fs as [|[file size] fs IH]; intros i.
  - cbn. split; [|done]. intros j line H. by rewrite lookup_nil in H.
  - cbn [print_files].
    destruct (get_file_date ftp (child_path path (name file))) as [date|e] eqn:Hdate.
    + destruct (IH (S i)) as [Hlines Hend]. cbn [fst snd]. split.
      * intros [|j] line Hj.
        -- injection Hj as <-. exists file, size, date.
           by rewrite is_last_flag, Nat.add_0_r.
        -- destruct (Hlines j line Hj) as (f & s & d & Hf & Hd & ->).
           exists f, s, d. by rewrite Nat.add_succ_r.
      * destruct (print_files ftp path level n (S i) fs).2; cbn; [done|]. by rewrite Hend.
    + cbn. split.
      * intros j line H. by rewrite lookup_nil in H.
      * by exists file, size.
Qed.

(** ** The walk of a finite tree ends *)

Lemma Forall2_choice {A B} (P : A → B → Prop) (l : list A) :
  (∀ x, x ∈ l → ∃ y, P x y) → ∃ k, Forall2 P l k.
Proof.
  induction l as [|x l IH]; intros H.
  - exists []. constructor.
  - destruct (H x) as [y Hy]; [apply elem_of_cons; by left|].
    destruct IH as [k Hk]; [intros z Hz; apply H, elem_of_cons; by right|].
    exists (y :: k). by constructor.
Qed.

Lemma print_directory_tree_finite ftp path fuel :
  finite_tree ftp path fuel →
  ∀ level, ∃ out, print_directory_tree fuel ftp path level = Some out.
Proof.
  induction 1 as [path fuel e He|path fuel items Hitems _ IH]; intros level.
  - cbn [print_directory_tree]. rewrite He. eauto.
  - cbn [print_directory_tree]. rewrite Hitems.
    destruct (Forall2_choice
                (λ d sub, print_directory_tree fuel ftp (child_path path (name d))
                            (level + 1) = Some sub)
                (sorted_dirs (classify ftp path items).1)) as [subs Hsubs].
    { intros d Hd. apply IH. by rewrite sorted_dirs_Permutation in Hd. }
    rewrite (print_dirs_spec _ _ _ _ _ _ _ _ Hsubs). cbn. eauto.
Qed.

(** ** C6 *)





(** ** C4 *)

Lemma sorted_files_nil fs : sorted_files fs = [] ↔ fs = [].
Proof.
  split; [|by intros ->].
  intros H. apply Permutation_nil_r. by rewrite <- H, sorted_files_Permutation.
Qed.

(** C4, as stated, fails in its example: the two entries of the root are not
    printed at the same indentation.  An entry of the root that is not the
    last one is printed without any prefix, the last one behind a prefix of
    six characters. *)
Lemma C4_counterexample :
  print_directory_tree 2 Fixture.printer "/" 0
  = Some [ entry_indent 0 false +:+ "dirA/";
           entry_indent 0 true +:+ "fileA.3mf (100 bytes, 2024-05-01 10:00:00)" ]
  ∧ Py.len (entry_indent 0 false) = 0%nat
  ∧ Py.len (entry_indent 0 true) = 6%nat.
Proof. split_and!; reflexivity. Qed.

(** C4, amended.  On a directory whose listing succeeds, in a remote tree
    the walk gets through, the walker prints: for each child classified as a
    directory, in the order of their names, its line followed at once by all
    the lines of the walk of that directory, one level deeper; after all of
    them, the lines of the children classified as files, in the order of
    their names (until a date query fails, which ends the level with an
    error line).  The line of the last sibling of the level, and only it,
    has the prefix that ends with the corner glyph, which differs from the
    prefix of the other siblings.  For a root that holds the empty directory
    dirA and the file fileA.3mf of 100 bytes, the walk prints the line of
    dirA/, without prefix, and then the line of fileA.3mf behind the prefix
    of a last sibling. *)
Theorem C4_directories_first_sorted_depth_first ftp path level fuel items :
  finite_tree ftp path (S fuel) →
  Ftp.list_files ftp path = Ok items →
  let dirs := sorted_dirs (classify ftp path items).1 in
  let files := sorted_files (classify ftp path items).2 in
  (Sorted item_le dirs ∧ dirs ≡ₚ (classify ftp path items).1
   ∧ Sorted file_le files ∧ files ≡ₚ (classify ftp path items).2)
  ∧ (∃ subs printed_files error,
       print_directory_tree (S fuel) ftp path level
       = Some (concat (imap (λ i ds,
                         (entry_indent level (bool_decide (S i = length dirs ∧ files = []))
                          +:+ name ds.1 +:+ "/") :: ds.2)
                       (zip dirs subs))
               ++ printed_files ++ error)
       ∧ Forall2 (λ dir sub,
                    print_directory_tree fuel ftp (child_path path (name dir)) (level + 1)
                    = Some sub) dirs subs
       ∧ (∀ i line, printed_files !! i = Some line →
            ∃ file size date,
              files !! i = Some (file, size)
              ∧ get_file_date ftp (child_path path (name file)) = Ok date
              ∧ line = file_line level (bool_decide (S i = length files)) file size date)
       ∧ (error = [] ∧ length printed_files = length files
          ∨ ∃ file size e,
              files !! length printed_files = Some (file, size)
              ∧ get_file_date ftp (child_path path (name file)) = Raise e
              ∧ error = [error_line level path e]))
  ∧ (Py.endswith (entry_indent level true) "└── " = true
     ∧ Py.endswith (entry_indent level false) "└── " = false
     ∧ entry_indent level true ≠ entry_indent level false)
  ∧ (∀ ftp' listing e date,
       Ftp.list_files ftp' "/" = Ok listing →
       listing ≡ₚ [ {| name := "dirA" |}; {| name := "fileA.3mf" |} ] →
       Ftp.list_files ftp' "/dirA" = Ok [] →
       get_file_size ftp' "/dirA" = Raise e →
       get_file_size ftp' "/fileA.3mf" = Ok 100%Z →
       get_file_date ftp' "/fileA.3mf" = Ok date →
       print_directory_tree 2 ftp' "/" 0
       = Some [ "dirA/"; "  └── fileA.3mf (100 bytes, " +:+ date +:+ ")" ]).
Proof.
  intros Hfin Hitems dirs files. split_and!.
  - apply sorted_dirs_Sorted.
  - apply sorted_dirs_Permutation.
  - apply sorted_files_Sorted.
  - apply sorted_files_Permutation.
  - inversion Hfin as [? ? e He|? ? items' Hitems' Hsub]; subst; [congruence|].
    assert (items' = items) as -> by congruence.
    destruct (Forall2_choice
                (λ d sub, print_directory_tree fuel ftp (child_path path (name d))
                            (level + 1) = Some sub) dirs) as [subs Hsubs].
    { intros d Hd. apply print_directory_tree_finite, Hsub.
      unfold dirs in Hd. by rewrite sorted_dirs_Permutation in Hd. }
    destruct (print_files_spec ftp path level (length (classify ftp path items).2) 0 files)
      as [Hlines Hend].
    set (out := print_files ftp path level (length (classify ftp path items).2) 0 files)
      in Hlines, Hend.
    assert (Hlen : length files = length (classify ftp path items).2).
    { unfold files. by rewrite sorted_files_Permutation. }
    exists subs, out.1,
      (match out.2 with Some e => [error_line level path e] | None => [] end).
    split_and!.
    + cbn [print_directory_tree]. rewrite Hitems. fold dirs files.
      rewrite (print_dirs_spec _ _ _ _ _ _ _ _ Hsubs). cbn. fold out. do 3 f_equal.
      apply imap_ext. intros j x _. cbn. do 3 f_equal.
      assert (Hd : length dirs = length (classify ftp path items).1).
      { unfold dirs. by rewrite sorted_dirs_Permutation. }
      rewrite Hd. fold (sorted_files (classify ftp path items).2).
      destruct (decide ((classify ftp path items).2 = [])) as [Hnil|Hnil].
      * rewrite (bool_decide_eq_true_2 _ Hnil), andb_true_r.
        apply bool_decide_ext. split; [|by intros [? _]].
        intros. split; [done|]. by apply sorted_files_nil.
      * rewrite (bool_decide_eq_false_2 _ Hnil), andb_false_r.
        symmetry. apply bool_decide_eq_false_2. intros [_ H].
        apply Hnil. by apply sorted_files_nil.
    + done.
    + intros i line Hi. destruct (Hlines i line Hi) as (f & s & d & Hf & Hd & ->).
      exists f, s, d. by rewrite Hlen.
    + destruct out.2 as [e|].
      * right. destruct Hend as (f & s & Hf & He). by exists f, s, e.
      * left. by split.
  - apply entry_indent_glyph.
  - apply entry_indent_glyph.
  - apply entry_indent_glyph.
  - clear. intros ftp listing e date Hroot Hperm Hsubdir HsizeA Hsize Hdate.
    assert (Hclass : classify ftp "/" listing
                     = ([ {| name := "dirA" |} ], [ ({| name := "fileA.3mf" |}, 100%Z) ])).
    { rewrite classify_spec. symmetry in Hperm.
      apply Permutation_length_2_inv in Hperm as [-> | ->];
        cbn [List.filter omap list_omap]; unfold is_dir_of, sized_of; cbn [name];
        change (child_path "/" "dirA") with "/dirA";
        change (child_path "/" "fileA.3mf") with "/fileA.3mf";
        by rewrite HsizeA, Hsize. }
    cbn [print_directory_tree]. rewrite Hroot, Hclass. cbn [fst snd].
    change (sorted_dirs [ {| name := "dirA" |} ]) with [ {| name := "dirA" |} ].
    change (sorted_files [ ({| name := "fileA.3mf" |}, 100%Z) ])
      with [ ({| name := "fileA.3mf" |}, 100%Z) ].
    cbn [print_dirs print_files name].
    change (child_path "/" "dirA") with "/dirA".
    change (child_path "/" "fileA.3mf") with "/fileA.3mf".
    rewrite Hsubdir, Hdate. reflexivity.
Qed.

Lemma C4_witness :
  finite_tree Fixture.printer "/" 2
  ∧ Ftp.list_files Fixture.printer "/"
    = Ok [ {| name := "fileA.3mf" |}; {| name := "dirA" |} ]
  ∧ print_directory_tree 2 Fixture.printer "/" 0
    = Some [ "dirA/"; "  └── fileA.3mf (100 bytes, 2024-05-01 10:00:00)" ].
Proof.
  assert (Hfin : finite_tree Fixture.printer "/" 2).
  { apply (finite_listing _ "/" 1 [ {| name := "fileA.3mf" |}; {| name := "dirA" |} ]);
      [reflexivity|].
    intros dir Hdir.
    change (dir ∈ [ {| name := "dirA" |} ]) in Hdir.
    apply list_elem_of_singleton in Hdir as ->.
    apply (finite_listing _ _ 0 []); [reflexivity|].
    intros d Hd. change (d ∈ []) in Hd. by apply elem_of_nil in Hd. }
  split; [exact Hfin|]. split; [reflexivity|].
  destruct (C4_directories_first_sorted_depth_first Fixture.printer "/" 0 1
              [ {| name := "fileA.3mf" |}; {| name := "dirA" |} ] Hfin eq_refl)
    as (_ & _ & _ & Hexample).
  rewrite (Hexample Fixture.printer
             [ {| name := "fileA.3mf" |}; {| name := "dirA" |} ]
             "550 Could not get file size." "2024-05-01 10:00:00"
             eq_refl (perm_swap _ _ _) eq_refl eq_refl eq_refl eq_refl).
  reflexivity.
Defined.


(** * Further properties of the script *)

(** ** When the three download-and-process routines raise *)


(** X3.  [extract_thumbnails] ends by an exception exactly when the download
    fails; the world is then the one of before the call.  In every case the
    only thing it changes is the standard output: no local file, directory
    or log record is written. *)
Theorem X3_extract_thumbnails_effects env ftp remote_path w :
  let r := extract_thumbnails env ftp remote_path w in
  (∀ e, r.1 = Raise e ↔ Ftp.download_file ftp remote_path = Raise e)
  ∧ (∀ e, Ftp.download_file ftp remote_path = Raise e → r.2 = w)
  ∧ files r.2 = files w ∧ dirs r.2 = dirs w ∧ log r.2 = log w.
Proof.
  intros r. subst r. split_and!.
  - intros e. destruct (Ftp.download_file ftp remote_path) as [bs|e'] eqn:Hdl.
    + destruct (ZipFile env bs) as [z|e'] eqn:Hzip.
      * rewrite (extract_thumbnails_run _ _ _ _ _ _ Hdl Hzip). by cbn.
      * rewrite (extract_thumbnails_not_a_zip _ _ _ _ _ _ Hdl Hzip). by cbn.
    + rewrite (extract_thumbnails_download_fails _ _ _ _ _ Hdl). cbn.
      split; by intros [= ->].
  - intros e Hdl. by rewrite (extract_thumbnails_download_fails _ _ _ _ _ Hdl).
  - assert (H : keeps files (extract_thumbnails env ftp remote_path)).
    { unfold extract_thumbnails. solve_keeps. }
    apply H.
  - assert (H : keeps dirs (extract_thumbnails env ftp remote_path)).
    { unfold extract_thumbnails. solve_keeps. }
    apply H.
  - assert (H : keeps log (extract_thumbnails env ftp remote_path)).
    { unfold extract_thumbnails. solve_keeps. }
    apply H.
Qed.

Lemma X3_witness :
  extract_thumbnails Fixture.env Fixture.printer "/cache/gone.3mf" Fixture.empty_world
  = (Raise "550 Failed to open file.", Fixture.empty_world).
Proof.
  destruct (X3_extract_thumbnails_effects Fixture.env Fixture.printer "/cache/gone.3mf"
              Fixture.empty_world) as (Hiff & Hsame & _).
  apply injective_projections.
  - apply Hiff. reflexivity.
  - apply (Hsame "550 Failed to open file."). reflexivity.
Defined.

(** X4.  [examine_3mf_structure] ends by an exception in two cases only:
    a regular file has the path of the thumbnails directory, and the error
    is the one of [os.makedirs], the world being left as it was; or the
    directory can be made and the download fails, and the error is the
    failure of the download: the routine has then created the thumbnails
    directory and printed its first line, which names the temporary file,
    and nothing else.  Whenever the directory can be made, the directories
    of after the call are those of before and the thumbnails directory.  In
    every case no log record is written, no request is made to the file
    list and no temporary file is left. *)
Theorem X4_examine_3mf_structure_effects env ftp remote_path w :
  let r := examine_3mf_structure env ftp remote_path w in
  (∀ e, r.1 = Raise e ↔
        (is_Some (files w !! thumbnails_dir env)
         ∧ e = str env (FileExistsError (thumbnails_dir env)))
        ∨ (files w !! thumbnails_dir env = None
           ∧ Ftp.download_file ftp remote_path = Raise e))
  ∧ (is_Some (files w !! thumbnails_dir env) → r.2 = w)
  ∧ (files w !! thumbnails_dir env = None →
       dirs r.2 = {[thumbnails_dir env]} ∪ dirs w
       ∧ ∀ e, Ftp.download_file ftp remote_path = Raise e →
           files r.2 = files w
           ∧ stdout r.2 = stdout w ++
               [ "Downloading " +:+ remote_path +:+ " to "
                 +:+ temp_name env (new_temp w) +:+ "..." ])
  ∧ log r.2 = log w
  ∧ requests r.2 = requests w
  ∧ temps r.2 = temps w.
Proof.
  intros r. subst r.
  destruct (files w !! thumbnails_dir env) as [bytes|] eqn:Hfree.
  { rewrite examine_3mf_structure_blocked by (rewrite Hfree; eauto). cbn [fst snd].
    split_and!; [|done..].
    intros e. split.
    - intros [= <-]. left. split; [eauto|done].
    - intros [[_ ->]|[? _]]; done. }
  destruct (Ftp.download_file ftp remote_path) as [bs|e'] eqn:Hdl.
  - assert (Hiff : ∀ e : exn, Ok tt = Raise e ↔
              (is_Some (@None (list byte))
               ∧ e = str env (FileExistsError (thumbnails_dir env)))
              ∨ (@None (list byte) = None ∧ Ok bs = Raise e)).
    { intros e. split; [done|]. intros [[[? ?] _]|[_ ?]]; done. }
    destruct (ZipFile env bs) as [z|e'] eqn:Hzip.
    + rewrite (examine_3mf_structure_opens _ _ _ _ _ _ Hfree Hdl Hzip).
      cbn [fst snd files dirs temps log stdout requests].
      split_and!; [exact Hiff|by intros [? ?]|by split|done..].
    + rewrite (examine_3mf_structure_not_a_zip _ _ _ _ _ _ Hfree Hdl Hzip).
      cbn [fst snd files dirs temps log stdout requests].
      split_and!; [exact Hiff|by intros [? ?]|by split|done..].
  - rewrite (examine_3mf_structure_download_fails _ _ _ _ _ Hfree Hdl).
    cbn [fst snd files dirs temps log stdout requests].
    split_and!; [|by intros [? ?]| |done..].
    + intros e. split.
      * intros [= <-]. right. by split.
      * intros [[[? ?] _]|[_ [= <-]]]; done.
    + intros _. split; [done|]. by intros e [= <-].
Qed.

Lemma X4_witness :
  let r := examine_3mf_structure Fixture.env Fixture.printer "/cache/gone.3mf"
             Fixture.empty_world in
  r.1 = Raise "550 Failed to open file."
  ∧ stdout r.2 = [ "Downloading /cache/gone.3mf to /tmp/tmpq7_x2k0a.3mf..." ].
Proof.
  destruct (X4_examine_3mf_structure_effects Fixture.env Fixture.printer "/cache/gone.3mf"
              Fixture.empty_world) as (Hiff & _ & Hfree & _).
  split.
  - apply Hiff. right. split; reflexivity.
  - destruct (Hfree eq_refl) as [_ Hfail].
    destruct (Hfail "550 Failed to open file." eq_refl) as [_ Hout]. exact Hout.
Defined.
(** ** examine_3mf_structure: which files it leaves behind *)





(** ** extract_required_files: repeated and combined runs *)




(** ** extract_required_files: what it leaves alone, what it announces *)

(** X8.  [extract_required_files] prints nothing and makes no request to
    the file list.  A local file whose content it changed is the target, in
    the output directory, of a name of the required set that is an entry of
    the archive it downloaded, and holds the bytes of such an entry or, when
    the read of the entry failed, nothing: when the download fails or the
    file is no archive, no local file is changed. *)
Theorem X8_extract_required_files_confined env ftp remote_path w :
  let r := extract_required_files env ftp remote_path w in
  stdout r.2 = stdout w
  ∧ requests r.2 = requests w
  ∧ ∀ p, files r.2 !! p ≠ files w !! p →
      ∃ bs z f, Ftp.download_file ftp remote_path = Ok bs ∧ ZipFile env bs = Ok z
        ∧ f ∈ required_iteration env ∧ f ∈ namelist z
        ∧ p = os_path.join (output_dir env remote_path) (os_path.basename f)
        ∧ (files r.2 !! p = Some []
           ∨ ∃ bytes, member_bytes z f = Some bytes ∧ files r.2 !! p = Some bytes).
Proof.
  intros r. subst r.
  split; [apply extract_required_files_keeps_stdout|].
  split; [apply extract_required_files_keeps_requests|].
  destruct (files w !! output_dir env remote_path) as [bytes|] eqn:Hfree.
  { rewrite extract_required_files_blocked by eauto. by intros p []. }
  destruct (Ftp.download_file ftp remote_path) as [bs|e] eqn:Hdl.
  2:{ rewrite (extract_required_files_download_fails _ _ _ _ _ Hfree Hdl). by intros p []. }
  destruct (ZipFile env bs) as [z|e] eqn:Hzip.
  2:{ rewrite (extract_required_files_not_a_zip _ _ _ _ _ _ Hfree Hdl Hzip).
      by intros p []. }
  rewrite (extract_required_files_opens _ _ _ _ _ _ Hfree Hdl Hzip). cbn [snd files].
  intros p (v & Hin & Hv)%apply_writes_changed.
  apply extract_writes_targets in Hin as (f & Hf & Hsome & Hp & _ & Hcontent).
  cbn [fst snd] in Hp, Hcontent.
  exists bs, z, f. split_and!; [done..|by apply NameToInfo_is_Some|done|].
  rewrite Hv. destruct Hcontent as [->|Hbytes]; [by left|right; by exists v].
Qed.




(** ** list_3mf_files: it always comes back, and what its log adds up to *)





(** X11.  When the connection is made and the listing obtained, the records
    that [list_3mf_files] adds to the log hold, for the files of the listing:
    one [Processing] record each, with the name of the file; one closing
    record each, which is either the failure record or the record of the
    processing time. *)
Theorem X11_one_closing_record_per_file env host access_code w ftp files :
  let file_list := RemoteSDCardFileList env (create_settings host access_code) in
  FileList.get_ftps_client file_list = Ok ftp →
  FileList.list_files file_list "/" ".3mf" ftp = Ok files →
  let r := list_3mf_files env host access_code w in
  let new := drop (length (log w)) (log r.2) in
  log r.2 = log w ++ new
  ∧ (∀ file, file ∈ files → INFO (Processing (file_name file)) ∈ new)
  ∧ length (List.filter is_processing new) = length files
  ∧ (length (List.filter is_failed new) + length (List.filter is_finished new))%nat
    = length files.
Proof.
  intros file_list Hc Hl r new. subst r new.
  rewrite list_3mf_files_run. cbn [snd]. fold file_list. rewrite Hc, Hl.
  cbn [log set_log].
  destruct (process_files_log env ftp files
              (set_log (λ l, l ++ [INFO (Found_3MF_files (length files))])
                 (set_requests (λ rs, rs ++ [Connect (create_settings host access_code);
                                             List_files "/" ".3mf"]) w)))
    as (added & -> & Hin & Hproc & Hclose).
  cbn [log set_log set_requests]. rewrite <- !app_assoc, drop_app_length.
  cbn [app]. split_and!.
  - done.
  - intros file Hfile. apply elem_of_cons. right. apply elem_of_app. left. by apply Hin.
  - cbn [List.filter is_processing]. by rewrite List.filter_app, length_app, Hproc.
  - cbn [List.filter is_failed is_finished].
    rewrite !List.filter_app, !length_app. cbn [List.filter is_failed is_finished length].
    lia.
Qed.

Lemma X11_witness :
  let r := list_3mf_files Fixture.env "192.168.178.70" "33055062" Fixture.empty_world in
  length (List.filter is_processing (log r.2)) = 4%nat
  ∧ (length (List.filter is_failed (log r.2))
     + length (List.filter is_finished (log r.2)))%nat = 4%nat.
Proof.
  destruct (X11_one_closing_record_per_file Fixture.env "192.168.178.70" "33055062"
              Fixture.empty_world Fixture.printer Fixture.listing eq_refl eq_refl)
    as (_ & _ & H1 & H2).
  cbn [Fixture.empty_world log length drop] in H1, H2.
  split; [exact H1|exact H2].
Defined.

(** ** list_printer_filesystem and the walker *)

Lemma for_each_print lines w :
  for_each lines print w = (Ok tt, set_stdout (λ o, o ++ lines) w).
Proof.
  revert w. induction lines as [|line lines IH]; intros w.
  - cbn. f_equal. apply world_eq; try reflexivity. cbn. by rewrite app_nil_r.
  - cbn [for_each]. unfold bind, print at 1. rewrite IH. f_equal.
    apply world_eq; try reflexivity. cbn. by rewrite <- app_assoc.
Qed.

(** A walk that ends with some bound on its depth ends with every larger
    one, and prints the same. *)
Lemma print_dirs_mono walk1 walk2 path level n nf i ds out :
  (∀ d sub, d ∈ ds → walk1 (child_path path (name d)) = Some sub →
            walk2 (child_path path (name d)) = Some sub) →
  print_dirs walk1 path level n nf i ds = Some out →
  print_dirs walk2 path level n nf i ds = Some out.
Proof.
  revert i out. induction ds as [|d ds IH]; intros i out Hw; [done|].
  cbn [print_dirs].
  destruct (walk1 (child_path path (name d))) as [sub|] eqn:Hsub; [|done].
  rewrite (Hw d sub) by (done || apply elem_of_cons; by left). cbn.
  destruct (print_dirs walk1 path level n nf (S i) ds) as [rest|] eqn:Hrest; [|done].
  rewrite (IH (S i) rest); [done| |done].
  intros d' sub' Hd'. apply Hw, elem_of_cons. by right.
Qed.

Lemma print_directory_tree_more_fuel fuel fuel' ftp path level out :
  print_directory_tree fuel ftp path level = Some out →
  (fuel ≤ fuel')%nat →
  print_directory_tree fuel' ftp path level = Some out.
Proof.
  revert fuel' path level out.
  induction fuel as [|fuel IH]; intros fuel' path level out Hout Hle; [done|].
  destruct fuel' as [|fuel']; [lia|].
  cbn [print_directory_tree] in *.
  destruct (Ftp.list_files ftp path) as [items|e]; [|done].
  destruct (print_dirs (λ p, print_directory_tree fuel ftp p (level + 1)) path level
              (length (classify ftp path items).1)
              (bool_decide ((classify ftp path items).2 = [])) 0
              (sorted_dirs (classify ftp path items).1)) as [dirs_out|] eqn:Hdirs; [|done].
  erewrite print_dirs_mono; [exact Hout| |exact Hdirs].
  intros d sub _ Hsub. cbn beta in *. apply (IH fuel'); [done|lia].
Qed.

(** X12.  [list_printer_filesystem] asks once for a connection, with the
    settings of its two arguments, and besides that only prints.  When the
    connection cannot be made it returns normally after printing the error
    and the four hints.  When it is made and the remote tree is one that the
    walk gets through within the bound on its depth, it returns normally
    after printing the heading and a rule of sixty equal signs, the lines of
    the walk from the root at level 0, and the rule again; a root that cannot
    be listed gives one error line, without indentation, between the two
    rules; no larger bound on the depth changes what is printed.  Nothing is
    said of a tree that no bound gets through. *)
Theorem X12_list_printer_filesystem_prints fuel env host access_code w :
  let settings := create_settings host access_code in
  let file_list := RemoteSDCardFileList env settings in
  let rule := Py.repeat_str "=" 60 in
  let connected := set_requests (λ rs, rs ++ [Connect settings]) w in
  (∀ e, FileList.get_ftps_client file_list = Raise e →
     ∃ m, list_printer_filesystem fuel env host access_code = Some m
          ∧ m w = (Ok tt,
                   set_stdout (λ o, o ++ [ newline +:+ "Error: " +:+ e;
                                           newline +:+ "Please verify:";
                                           "1. The printer is powered on";
                                           "2. The IP address is correct";
                                           "3. The access code is correct";
                                           "4. You're on the same network as the printer" ])
                     connected))
  ∧ (∀ ftp, FileList.get_ftps_client file_list = Ok ftp →
       finite_tree ftp "/" fuel →
       ∃ lines, print_directory_tree fuel ftp "/" 0 = Some lines
         ∧ (∀ e, Ftp.list_files ftp "/" = Raise e → lines = ["Error reading /: " +:+ e])
         ∧ ∀ fuel', (fuel ≤ fuel')%nat →
             ∃ m, list_printer_filesystem fuel' env host access_code = Some m
                  ∧ m w = (Ok tt,
                           set_stdout (λ o, o ++ [ newline +:+ "Scanning printer filesystem...";
                                                   rule ] ++ lines ++ [rule]) connected)).
Proof.
  intros settings file_list rule connected. split.
  - intros e Hc. unfold list_printer_filesystem. fold settings file_list. rewrite Hc.
    eexists. split; [reflexivity|].
    unfold list_printer_filesystem_with. fold settings file_list.
    unfold try_except, bind at 1, get_ftps_client. rewrite Hc.
    unfold bind, print. f_equal.
    apply world_eq; try reflexivity. cbn. by rewrite <- !app_assoc.
  - intros ftp Hc Hfin.
    destruct (print_directory_tree_finite _ _ _ Hfin 0%Z) as [lines Hlines].
    exists lines. split_and!; [done| |].
    + intros e He. destruct fuel as [|fuel]; [done|].
      cbn [print_directory_tree] in Hlines. rewrite He in Hlines.
      by injection Hlines as <-.
    + intros fuel' Hle. unfold list_printer_filesystem. fold settings file_list. rewrite Hc.
      rewrite (print_directory_tree_more_fuel _ _ _ _ _ _ Hlines Hle). cbn [mbind option_bind].
      eexists. split; [reflexivity|].
      unfold list_printer_filesystem_with. fold settings file_list.
      unfold try_except, bind at 1, get_ftps_client. rewrite Hc.
      unfold bind at 1, print at 1. unfold bind at 1, print at 1.
      unfold bind at 1. rewrite for_each_print. unfold print. f_equal.
      apply world_eq; try reflexivity. cbn. by rewrite <- !app_assoc.
Qed.

Lemma X12_witness :
  ∃ m, list_printer_filesystem 2 Fixture.env "192.168.178.70" "33055062" = Some m
       ∧ stdout (m Fixture.empty_world).2
         = [ newline +:+ "Scanning printer filesystem...";
             Py.repeat_str "=" 60;
             "dirA/";
             "  └── fileA.3mf (100 bytes, 2024-05-01 10:00:00)";
             Py.repeat_str "=" 60 ]
       ∧ requests (m Fixture.empty_world).2
         = [ Connect (create_settings "192.168.178.70" "33055062") ].
Proof.
  destruct (X12_list_printer_filesystem_prints 2 Fixture.env "192.168.178.70" "33055062"
              Fixture.empty_world) as [_ H].
  assert (Hfin : finite_tree Fixture.printer "/" 2).
  { apply (finite_listing _ "/" 1 [ {| name := "fileA.3mf" |}; {| name := "dirA" |} ]);
      [reflexivity|].
    intros dir Hdir. vm_compute in Hdir.
    apply list_elem_of_singleton in Hdir. subst dir.
    apply (finite_listing _ _ 0 []); [reflexivity|].
    intros dir Hdir. by apply elem_of_nil in Hdir. }
  destruct (H Fixture.printer eq_refl Hfin) as (lines & Hlines & _ & Hm).
  destruct (Hm 2%nat (le_n 2)) as (m & Hrun & Hout).
  exists m. split; [exact Hrun|]. rewrite Hout.
  vm_compute in Hlines. injection Hlines as <-. split; reflexivity.
Defined.

Lemma len_append a b : Py.len (a +:+ b) = (Py.len a + Py.len b)%nat.
Proof.
  induction a as [|c a IH]; [done|].
  rewrite append_cons. cbn [Py.len]. rewrite IH. by destruct (Py.is_continuation c).
Qed.

Lemma len_repeat_str s n : Py.len (Py.repeat_str s n) = (n * Py.len s)%nat.
Proof.
  induction n as [|n IH]; [done|].
  cbn [Py.repeat_str]. rewrite len_append, IH. lia.
Qed.

(** X13.  The width of the prefixes, in characters.  At level 0 an entry
    that is not the last of its level has no prefix and the last one has a
    prefix of 6 characters.  At every deeper level the prefix of the entries
    that are not the last is 6 characters for each level, and the prefix of
    the last entry is 2 characters wider: cutting four characters off the
    six of the branch glyph leaves its two leading blanks.  The names of the
    siblings of one level therefore never start in the same column as the
    name of the last. *)
Theorem X13_prefix_widths level :
  Py.len (entry_indent level false)
  = (if (0 <? level)%Z then 6 * Z.to_nat level else 0)%nat
  ∧ Py.len (entry_indent level true)
    = (if (0 <? level)%Z then 6 * Z.to_nat level + 2 else 6)%nat
  ∧ Py.len (entry_indent level true) ≠ Py.len (entry_indent level false).
Proof.
  assert (H1 : Py.len (entry_indent level false)
               = (if (0 <? level)%Z then 6 * Z.to_nat level else 0)%nat).
  { unfold entry_indent, indent. destruct (0 <? level)%Z eqn:Hl; [|done].
    rewrite len_append, len_repeat_str.
    change (Py.len "  │   ") with 6%nat. change (Py.len "  ├── ") with 6%nat.
    apply Z.ltb_lt in Hl. lia. }
  assert (H2 : Py.len (entry_indent level true)
               = (if (0 <? level)%Z then 6 * Z.to_nat level + 2 else 6)%nat).
  { rewrite entry_indent_last. destruct (0 <? level)%Z eqn:Hl; [|done].
    rewrite len_append, len_repeat_str.
    change (Py.len "  │   ") with 6%nat. change (Py.len "    └── ") with 8%nat.
    apply Z.ltb_lt in Hl. lia. }
  split_and!; [done..|].
  rewrite H1, H2. destruct (0 <? level)%Z; lia.
Qed.

(** X14.  A child directory that cannot be listed does not interrupt the
    walk of its parent.  In a tree that the walk gets through, the walk of
    the parent prints, for each child classified as a directory, in the order
    of the names, the line of the child followed by the lines of the walk of
    that child, and then the lines of the files; the lines of the walk of the
    child that cannot be listed are one error line with the prefix of the
    next level, the path of the child and the text of the error. *)
Theorem X14_unreadable_subdirectory fuel ftp path level items d e :
  finite_tree ftp path (S fuel) →
  Ftp.list_files ftp path = Ok items →
  d ∈ items →
  is_dir_of ftp path d = true →
  Ftp.list_files ftp (child_path path (name d)) = Raise e →
  let dirs := sorted_dirs (classify ftp path items).1 in
  let files := sorted_files (classify ftp path items).2 in
  let files_out :=
    print_files ftp path level (length (classify ftp path items).2) 0 files in
  ∃ subs,
    Forall2 (λ dir sub,
               print_directory_tree fuel ftp (child_path path (name dir)) (level + 1)
               = Some sub) dirs subs
    ∧ (∃ k, dirs !! k = Some d)
    ∧ (∀ k, dirs !! k = Some d →
         subs !! k = Some [ indent (level + 1) +:+ "Error reading "
                            +:+ child_path path (name d) +:+ ": " +:+ e ])
    ∧ print_directory_tree (S fuel) ftp path level
      = Some (concat (imap (λ i ds,
                        (entry_indent level
                           (bool_decide (S i = length (classify ftp path items).1)
                            && bool_decide ((classify ftp path items).2 = []))
                         +:+ name ds.1 +:+ "/") :: ds.2)
                      (zip dirs subs))
              ++ files_out.1
              ++ match files_out.2 with
                 | Some e' => [error_line level path e']
                 | None => []
                 end).
Proof.
  intros Hfin Hitems Hd Hdir He dirs files files_out.
  inversion Hfin as [? ? e' He'|? ? items' Hitems' Hsub]; subst; [congruence|].
  assert (items' = items) as -> by congruence.
  assert (Hin : d ∈ (classify ftp path items).1).
  { rewrite classify_spec. cbn [fst]. by apply elem_of_filter_bool. }
  assert (Hwalk : print_directory_tree fuel ftp (child_path path (name d)) (level + 1)
                  = Some [error_line (level + 1) (child_path path (name d)) e]).
  { specialize (Hsub d Hin). destruct fuel as [|fuel]; [inversion Hsub|].
    cbn [print_directory_tree]. by rewrite He. }
  destruct (Forall2_choice
              (λ dir sub, print_directory_tree fuel ftp (child_path path (name dir))
                            (level + 1) = Some sub) dirs) as [subs Hsubs].
  { intros d' Hd'. apply print_directory_tree_finite, Hsub.
    unfold dirs in Hd'. by rewrite sorted_dirs_Permutation in Hd'. }
  exists subs. split_and!.
  - done.
  - apply list_elem_of_lookup. unfold dirs. by rewrite sorted_dirs_Permutation.
  - intros k Hk.
    destruct (Forall2_lookup_l _ _ _ _ _ Hsubs Hk) as (sub & Hsubk & Hsubd).
    cbn beta in Hsubd. rewrite Hwalk in Hsubd. by injection Hsubd as <-.
  - cbn [print_directory_tree]. rewrite Hitems. fold dirs files.
    rewrite (print_dirs_spec _ _ _ _ _ _ _ _ Hsubs). cbn [mbind option_bind].
    fold files_out. reflexivity.
Qed.

Lemma X14_witness :
  print_directory_tree 2 Reprint.printer "/" 0
  = Some [ "cache/";
           "  └── model/";
           "  ├── Error reading /model: 550 Permission denied." ].
Proof.
  assert (Hfin : finite_tree Reprint.printer "/" 2).
  { apply (finite_listing _ "/" 1 [ {| name := "model" |}; {| name := "cache" |} ]);
      [reflexivity|].
    intros dir Hdir. vm_compute in Hdir.
    apply elem_of_cons in Hdir as [->|Hdir].
    - by apply (finite_error _ _ 0 "550 Permission denied.").
    - apply list_elem_of_singleton in Hdir. subst dir.
      apply (finite_listing _ _ 0 []); [reflexivity|].
      intros dir Hdir. by apply elem_of_nil in Hdir. }
  destruct (X14_unreadable_subdirectory 1 Reprint.printer "/" 0
              [ {| name := "model" |}; {| name := "cache" |} ] {| name := "model" |}
              "550 Permission denied." Hfin eq_refl)
    as (subs & Hsubs & _ & Hk & Hout); [by left|reflexivity|reflexivity|].
  rewrite Hout. clear Hout.
  change (sorted_dirs (classify Reprint.printer "/"
                         [ {| name := "model" |}; {| name := "cache" |} ]).1)
    with [ {| name := "cache" |}; {| name := "model" |} ] in *.
  pose proof (Hk 1%nat eq_refl) as Hmodel.
  apply Forall2_cons_inv_l in Hsubs as (sub0 & subs' & H0 & Hsubs & ->).
  apply Forall2_cons_inv_l in Hsubs as (sub1 & subs'' & _ & Hsubs & ->).
  apply Forall2_nil_inv_l in Hsubs as ->.
  cbn in Hmodel. injection Hmodel as ->.
  vm_compute in H0. injection H0 as <-.
  reflexivity.
Defined.

(** ** The path of a child *)

Lemma replace_dslash_other c s :
  c ≠ "/"%char → Py.replace_dslash (String c s) = String c (Py.replace_dslash s).
Proof.
  intros Hc. destruct c as [[] [] [] [] [] [] [] []]; try reflexivity. by destruct Hc.
Qed.

Lemma replace_dslash_single s :
  String.prefix "/" s = false →
  Py.replace_dslash (String "/" s) = String "/" (Py.replace_dslash s).
Proof.
  destruct s as [|d s]; [done|]. cbn [String.prefix].
  destruct (ascii_dec "/" d) as [<-|Hd]; [by destruct s|]. intros _.
  destruct d as [[] [] [] [] [] [] [] []]; try reflexivity. by destruct Hd.
Qed.

Lemma contains_cons c s p :
  Py.contains (String c s) p = false → Py.contains s p = false.
Proof. cbn [Py.contains]. by intros [_ H]%orb_false_elim. Qed.

Lemma replace_dslash_plain name :
  Py.contains name "/" = false → Py.replace_dslash name = name.
Proof.
  induction name as [|c name IH]; [done|]. intros H.
  pose proof (contains_cons _ _ _ H) as H'.
  cbn [Py.contains String.prefix] in H.
  destruct (ascii_dec "/" c) as [<-|Hc]; [by destruct name|].
  rewrite replace_dslash_other by done. by rewrite IH.
Qed.

Lemma endswith_cons c s p :
  Py.endswith (String c s) p = false → Py.endswith s p = false.
Proof. cbn [Py.endswith]. by intros [_ H]%orb_false_elim. Qed.

(** Joining a name without slash to a path without doubled or final slash
    gives a text in which [replace] finds nothing. *)
Lemma replace_dslash_join s name :
  Py.contains s "//" = false → Py.endswith s "/" = false →
  Py.contains name "/" = false →
  Py.replace_dslash (s +:+ "/" +:+ name) = s +:+ "/" +:+ name.
Proof.
  intros Hs Hend Hname. induction s as [|c s IH].
  - rewrite append_nil_l, append_cons, append_nil_l.
    rewrite replace_dslash_single, replace_dslash_plain; [done..|].
    destruct name as [|d name]; [done|].
    cbn [Py.contains String.prefix] in Hname. cbn [String.prefix].
    destruct (ascii_dec "/" d); [by destruct name|done].
  - pose proof (contains_cons _ _ _ Hs) as Hs'.
    pose proof (endswith_cons _ _ _ Hend) as Hend'.
    rewrite append_cons.
    destruct (decide (c = "/"%char)) as [->|Hc].
    + rewrite replace_dslash_single; [by rewrite IH|].
      destruct s as [|d s]; [done|]. rewrite append_cons.
      cbn [Py.contains String.prefix] in Hs. cbn [String.prefix].
      destruct (ascii_dec "/" d); [|done].
      destruct (ascii_dec "/" "/"); [|done]. by destruct s.
    + rewrite replace_dslash_other by done. by rewrite IH.
Qed.

Lemma lstrip_head c s t : Py.lstrip c s ≠ String c t.
Proof.
  induction s as [|d s IH]; [done|]. cbn [Py.lstrip].
  destruct (decide (d = c)) as [->|Hd]; [done|]. intros [= -> _]. by destruct Hd.
Qed.

Lemma lstrip_suffix c s : ∃ u, s = u +:+ Py.lstrip c s.
Proof.
  induction s as [|d s [u IH]]; [by exists ""|]. cbn [Py.lstrip].
  destruct (decide (d = c)) as [->|Hd]; [|by exists ""].
  exists (String c u). by rewrite append_cons, <- IH.
Qed.

Lemma rstrip_prefix c s : ∃ t, s = Py.rstrip c s +:+ t.
Proof.
  unfold Py.rstrip. destruct (lstrip_suffix c (String.rev s)) as [u Hu].
  exists (String.rev u).
  by rewrite <- rev_append, <- Hu, rev_involutive.
Qed.

Lemma rstrip_no_final c s : Py.endswith (Py.rstrip c s) (String c "") = false.
Proof.
  apply not_true_is_false. intros [a Ha]%endswith_spec. unfold Py.rstrip in Ha.
  apply (f_equal String.rev) in Ha. rewrite rev_involutive, rev_append in Ha.
  by apply lstrip_head in Ha.
Qed.

Lemma rstrip_snoc c s : Py.rstrip c (s +:+ String c "") = Py.rstrip c s.
Proof.
  unfold Py.rstrip. rewrite rev_append.
  change (String.rev (String c "")) with (String c "").
  rewrite append_cons, append_nil_l. cbn [Py.lstrip].
  by destruct (decide (c = c)).
Qed.

(** X15.  The path of a child.  A final slash of the parent does not count.
    When the parent has no doubled slash and the name of the child no slash,
    the path is the parent without its final slashes, a slash and the name:
    the replacement of doubled slashes finds nothing to replace.  Under such
    a parent, children of different names have different paths, so that the
    size query, the listing and the date query of one child are not those of
    another. *)
Theorem X15_child_path path :
  (∀ name, child_path (path +:+ "/") name = child_path path name)
  ∧ (Py.contains path "//" = false →
     (∀ name, Py.contains name "/" = false →
              child_path path name = Py.rstrip "/" path +:+ "/" +:+ name)
     ∧ (∀ name1 name2,
          Py.contains name1 "/" = false → Py.contains name2 "/" = false →
          child_path path name1 = child_path path name2 → name1 = name2)).
Proof.
  split.
  - intros name. unfold child_path. by rewrite rstrip_snoc.
  - intros Hpath.
    assert (Hjoin : ∀ name, Py.contains name "/" = false →
              child_path path name = Py.rstrip "/" path +:+ "/" +:+ name).
    { intros name Hname. unfold child_path. apply replace_dslash_join; [| |done].
      - apply not_true_is_false. intros (a & b & Hab)%contains_spec.
        destruct (rstrip_prefix "/" path) as [t Ht].
        assert (Py.contains path "//" = true) as Hc; [|by rewrite Hpath in Hc].
        apply contains_spec. exists a, (b +:+ t).
        rewrite Ht at 1. rewrite Hab. by rewrite !append_assoc.
      - apply rstrip_no_final. }
    split; [done|].
    intros name1 name2 H1 H2. rewrite !Hjoin by done. intros Heq.
    apply (inj (String.app _)) in Heq. by apply (inj (String.app "/")) in Heq.
Qed.

Lemma X15_witness :
  child_path "/cache/" "cube.gcode.3mf" = "/cache/cube.gcode.3mf"
  ∧ child_path "/" "dirA" = "/dirA".
Proof.
  split.
  - exact (proj1 (proj2 (X15_child_path "/cache/") eq_refl) "cube.gcode.3mf" eq_refl).
  - exact (proj1 (proj2 (X15_child_path "/") eq_refl) "dirA" eq_refl).
Defined.
